(** * The content-preparation scripts, embedded and verified

    Two Python scripts are modelled here:

    - [scripts/explode_json.py], the splitter, which writes one file per
      element of a JSON array (module [Explode]);
    - [scripts/enrich-knowledge-content.py], the enricher, which asks an
      external command-line tool to classify every record of a folder and
      merges the validated answer into the record (module [Enrich]).

    Module [Py] holds the fragment of Python both scripts rely on: JSON
    values as [json.load] returns them, the built-in operations the
    scripts apply to them, and exceptions as an error monad.

    Modelling conventions.

    - A Python [str] is a Rocq [string]; its characters are the code
      points below 256.
    - A file is modelled by the value [json.load] returns on it ([Doc]),
      or by [NotJson] when [json.load] raises on it; [json.dump] stores
      the value it is given, and does not fail once the file is open.
    - The file map is keyed by the path string handed to the operating
      system. The splitter hands over what [os.path.join] returns; the
      enricher goes through [pathlib], which drops empty and single-dot
      components first ([path_norm]). Whether the splitter can create its
      output directory and open an output file is for the operating
      system to say ([Disk]), except for the two failures Python itself
      decides: an empty directory name and a NUL character in a path. The
      enricher's paths come from the command line and from directory
      listings, hold no NUL, and are taken to be writable.
    - The external tool, the clock, directory listings and the iteration
      order of a [set] are oracles ([Host], [Hashing]); [float.__repr__]
      and [json.loads] on text are library functions taken as an
      interface ([PyRuntime]).
    - Uncaught exceptions end a script; caught ones follow the handlers
      of the source. *)

From Stdlib Require Import ZArith String Ascii List Permutation Lia DecimalString.
From stdpp Require Import gmap strings list.

Local Open Scope Z_scope.

(* ===================================================================== *)
(** * Part I: the model *)
(* ===================================================================== *)

Module Py.

(** ** Exceptions *)

Inductive exn :=
| TypeError
| KeyError
| AttributeError
| ValueError
| OSError
| JSONDecodeError.

Inductive result (A : Type) :=
| Ok (a : A)
| Raise (e : exn).

Arguments Ok {A} a.
Arguments Raise {A} e.

#[global] Instance result_ret : MRet result := fun A a => Ok a.

#[global] Instance result_bind : MBind result := fun A B f m =>
  match m with
  | Ok a => f a
  | Raise e => Raise e
  end.

(** ** Floats and JSON values *)

(** A Python float by its value: [FFin neg m e] is [(-1)^neg * m * 2^e]. *)
Inductive pyfloat :=
| FNan
| FInf (neg : bool)
| FFin (neg : bool) (m : N) (e : Z).

(** What [json.load] returns: [None], [bool], [int], [float], [str],
    [list], and [dict] with string keys in insertion order. *)
#[local] Unset Elimination Schemes.
Inductive json :=
| JNull
| JBool (b : bool)
| JInt (n : Z)
| JFloat (f : pyfloat)
| JStr (s : string)
| JArr (xs : list json)
| JObj (kvs : list (string * json)).
#[local] Set Elimination Schemes.

(** The library functions the scripts call and that are not part of the
    repository. [json_loads] is [None] where [json.loads] raises. *)
Class PyRuntime := {
  float_repr : pyfloat -> string;
  json_loads : string -> option json
}.

(** ** Strings *)

Definition dq : string := String "034"%char "".

Definition ascii_eqb (a b : ascii) : bool := Ascii.eqb a b.

Definition code (c : ascii) : Z := Z.of_nat (nat_of_ascii c).

Definition str_len (s : string) : Z := Z.of_nat (String.length s).

Fixpoint str_contains_char (c : ascii) (s : string) : bool :=
  match s with
  | EmptyString => false
  | String a s' => ascii_eqb a c || str_contains_char c s'
  end.

(** [sub in s] for two strings: substring test. *)
Fixpoint str_contains (sub s : string) : bool :=
  String.prefix sub s ||
  match s with
  | EmptyString => false
  | String _ s' => str_contains sub s'
  end.

Fixpoint str_join (sep : string) (parts : list string) : string :=
  match parts with
  | [] => ""
  | [p] => p
  | p :: rest => p +:+ sep +:+ str_join sep rest
  end.

(** [s.find(c)] for a one-character [c]: the first index, or -1. *)
Fixpoint str_find (c : ascii) (s : string) : Z :=
  match s with
  | EmptyString => -1
  | String a s' =>
      if ascii_eqb a c then 0
      else let r := str_find c s' in if r <? 0 then -1 else r + 1
  end.

(** [s.rfind(c)] for a one-character [c]: the last index, or -1. *)
Fixpoint str_rfind (c : ascii) (s : string) : Z :=
  match s with
  | EmptyString => -1
  | String a s' =>
      let r := str_rfind c s' in
      if 0 <=? r then r + 1
      else if ascii_eqb a c then 0 else -1
  end.

(** [s[i:j]] for [0 <= i], the only case the scripts reach. *)
Definition str_slice (s : string) (i j : Z) : string :=
  String.substring (Z.to_nat i) (Z.to_nat (j - i)) s.

(** [str.isspace] on one character. *)
Definition is_space (c : ascii) : bool :=
  let n := code c in
  ((9 <=? n) && (n <=? 13)) || ((28 <=? n) && (n <=? 32))
  || (n =? 133) || (n =? 160).

Fixpoint lstrip (s : string) : string :=
  match s with
  | EmptyString => EmptyString
  | String a s' => if is_space a then lstrip s' else s
  end.

Fixpoint rstrip (s : string) : string :=
  match s with
  | EmptyString => EmptyString
  | String a s' =>
      match rstrip s' with
      | EmptyString => if is_space a then EmptyString else String a EmptyString
      | r => String a r
      end
  end.

(** [s.strip()] *)
Definition strip (s : string) : string := rstrip (lstrip s).

Fixpoint str_take (n : nat) (s : string) : string :=
  match n, s with
  | S n', String a s' => String a (str_take n' s')
  | _, _ => EmptyString
  end.

(** [str(n)] for an [int]. *)
Definition int_str (n : Z) : string := NilZero.string_of_int (Z.to_int n).

Definition hex_digit (n : Z) : ascii :=
  ascii_of_nat (Z.to_nat (if n <? 10 then 48 + n else 87 + n)).

(** [str.isprintable] on one character. *)
Definition is_printable (c : ascii) : bool :=
  let n := code c in
  ((32 <=? n) && (n <? 127)) || ((161 <=? n) && negb (n =? 173)).

Definition repr_char (quote c : ascii) : string :=
  let n := code c in
  if ascii_eqb c quote || ascii_eqb c "\"%char then String "\"%char (String c "")
  else if n =? 9 then "\t"
  else if n =? 10 then "\n"
  else if n =? 13 then "\r"
  else if is_printable c then String c ""
  else String "\"%char (String "x"%char
         (String (hex_digit (n / 16)) (String (hex_digit (n mod 16)) ""))).

Fixpoint repr_chars (quote : ascii) (s : string) : string :=
  match s with
  | EmptyString => EmptyString
  | String a s' => repr_char quote a +:+ repr_chars quote s'
  end.

(** [repr(s)] for a [str]: single quotes, unless the string has a single
    quote and no double quote. *)
Definition str_repr (s : string) : string :=
  let quote :=
    if str_contains_char "'"%char s && negb (str_contains_char "034"%char s)
    then "034"%char else "'"%char in
  String quote (repr_chars quote s +:+ String quote "").

(** ** Built-in operations on JSON values *)

(** [repr(v)] *)
Fixpoint py_repr `{!PyRuntime} (v : json) : string :=
  match v with
  | JNull => "None"
  | JBool true => "True"
  | JBool false => "False"
  | JInt n => int_str n
  | JFloat f => float_repr f
  | JStr s => str_repr s
  | JArr xs => "[" +:+ str_join ", " (map py_repr xs) +:+ "]"
  | JObj kvs =>
      "{" +:+ str_join ", "
        (map (fun kv => str_repr (fst kv) +:+ ": " +:+ py_repr (snd kv)) kvs)
      +:+ "}"
  end.

(** [str(v)], also what an f-string prints for [{v}]. *)
Definition py_str `{!PyRuntime} (v : json) : string :=
  match v with
  | JStr s => s
  | _ => py_repr v
  end.

Fixpoint dict_lookup (k : string) (d : list (string * json)) : option json :=
  match d with
  | [] => None
  | (k', v) :: d' => if String.eqb k' k then Some v else dict_lookup k d'
  end.

Definition dict_has (k : string) (d : list (string * json)) : bool :=
  match dict_lookup k d with Some _ => true | None => false end.

(** [d[k] = v]: replaces the value of an existing key in place, appends a
    new key. *)
Fixpoint dict_set (k : string) (v : json) (d : list (string * json))
  : list (string * json) :=
  match d with
  | [] => [(k, v)]
  | (k', v') :: d' =>
      if String.eqb k' k then (k', v) :: d' else (k', v') :: dict_set k v d'
  end.

(** [d.update(r)] for a dict [r]. *)
Definition dict_update (d r : list (string * json)) : list (string * json) :=
  fold_left (fun acc kv => dict_set (fst kv) (snd kv) acc) r d.

Definition is_str (k : string) (v : json) : bool :=
  match v with
  | JStr s => String.eqb s k
  | _ => false
  end.

(** [k in c] for a string [k]. *)
Definition py_contains (k : string) (c : json) : result bool :=
  match c with
  | JObj d => Ok (dict_has k d)
  | JArr xs => Ok (existsb (is_str k) xs)
  | JStr s => Ok (str_contains k s)
  | _ => Raise TypeError
  end.

(** [c[k]] for a string [k]. *)
Definition py_getitem (c : json) (k : string) : result json :=
  match c with
  | JObj d =>
      match dict_lookup k d with
      | Some v => Ok v
      | None => Raise KeyError
      end
  | _ => Raise TypeError
  end.

(** [c.get(k, default)]: only a dict has the method. *)
Definition py_get (c : json) (k : string) (default : json) : result json :=
  match c with
  | JObj d =>
      match dict_lookup k d with
      | Some v => Ok v
      | None => Ok default
      end
  | _ => Raise AttributeError
  end.

(** [v[:n]] *)
Definition py_prefix (v : json) (n : nat) : result json :=
  match v with
  | JStr s => Ok (JStr (str_take n s))
  | JArr xs => Ok (JArr (firstn n xs))
  | _ => Raise TypeError
  end.

(** [len(v)] *)
Definition py_len (v : json) : result Z :=
  match v with
  | JStr s => Ok (str_len s)
  | JArr xs => Ok (Z.of_nat (length xs))
  | JObj kvs => Ok (Z.of_nat (length kvs))
  | _ => Raise TypeError
  end.

(** ** Equality and sets *)

Definition float_eq_int (f : pyfloat) (n : Z) : bool :=
  match f with
  | FFin neg m e =>
      let sm := if neg then - Z.of_N m else Z.of_N m in
      if 0 <=? e then n =? sm * 2 ^ e else n * 2 ^ (- e) =? sm
  | _ => false
  end.

Definition float_eqb (f g : pyfloat) : bool :=
  match f, g with
  | FInf a, FInf b => Bool.eqb a b
  | FFin n1 m1 e1, FFin n2 m2 e2 =>
      let s1 := if n1 then - Z.of_N m1 else Z.of_N m1 in
      let s2 := if n2 then - Z.of_N m2 else Z.of_N m2 in
      let e := Z.min e1 e2 in
      s1 * 2 ^ (e1 - e) =? s2 * 2 ^ (e2 - e)
  | _, _ => false
  end.

(** [a == b] on the hashable values: [bool] is a subtype of [int], numbers
    compare by value, a NaN equals nothing. *)
Definition py_eqb (a b : json) : bool :=
  match a, b with
  | JNull, JNull => true
  | JStr s, JStr t => String.eqb s t
  | JBool x, JBool y => Bool.eqb x y
  | JBool x, JInt n | JInt n, JBool x => n =? (if x then 1 else 0)
  | JBool x, JFloat f | JFloat f, JBool x => float_eq_int f (if x then 1 else 0)
  | JInt n, JInt m => n =? m
  | JInt n, JFloat f | JFloat f, JInt n => float_eq_int f n
  | JFloat f, JFloat g => float_eqb f g
  | _, _ => false
  end.

Definition hashable (v : json) : bool :=
  match v with
  | JArr _ | JObj _ => false
  | _ => true
  end.

(** Membership in a container: [x is y or x == y]. The one value that
    differs from itself is the float NaN; [json.load] returns the same
    object for every [NaN] it reads, and the scripts make no other. *)
Definition py_same (a b : json) : bool :=
  match a, b with
  | JFloat FNan, JFloat FNan => true
  | _, _ => py_eqb a b
  end.

(** A Python [set] of hashable values: its members, without duplicates,
    in the order in which the set is iterated. *)
Definition pyset := list json.

(** The iteration order of a [set] follows the hashes of its members,
    which for strings change from one run of the interpreter to the next.
    [set_order (s ++ [x])] is the order of the set after [x] was added to
    a set that was iterated as [s]: some arrangement of these members. *)
Class Hashing := {
  set_order : list json -> list json;
  set_order_perm : forall l, Permutation (set_order l) l
}.

Definition set_mem (x : json) (s : pyset) : bool := existsb (py_same x) s.

(** [s.add(x)]: a member that equals [x] stays, and [x] is not added. *)
Definition set_add `{!Hashing} (x : json) (s : pyset) : pyset :=
  if set_mem x s then s else set_order (s ++ [x]).

Fixpoint set_of_list `{!Hashing} (xs : list json) (acc : pyset) : result pyset :=
  match xs with
  | [] => Ok acc
  | x :: xs' =>
      if hashable x then set_of_list xs' (set_add x acc) else Raise TypeError
  end.

Fixpoint chars (s : string) : list json :=
  match s with
  | EmptyString => []
  | String a s' => JStr (String a "") :: chars s'
  end.

(** [set(v)]: iterates a list, the characters of a string or the keys of
    a dict. *)
Definition py_set `{!Hashing} (v : json) : result pyset :=
  match v with
  | JArr xs => set_of_list xs []
  | JStr s => set_of_list (chars s) []
  | JObj kvs => set_of_list (map (fun kv => JStr (fst kv)) kvs) []
  | _ => Raise TypeError
  end.

(** ** Files and paths *)

Inductive file :=
| NotJson
| Doc (v : json).

(** [os.path.join(a, b)] on POSIX. *)
Definition path_join (a b : string) : string :=
  match b with
  | String "/"%char _ => b
  | _ =>
      match String.rev a with
      | EmptyString => b
      | String "/"%char _ => a +:+ b
      | _ => a +:+ "/" +:+ b
      end
  end.

(** The text between the slashes of [s]. *)
Fixpoint split_slash (s : string) : list string :=
  match s with
  | EmptyString => [EmptyString]
  | String a s' =>
      if ascii_eqb a "/" then EmptyString :: split_slash s'
      else
        match split_slash s' with
        | [] => [String a EmptyString]
        | c :: cs => String a c :: cs
        end
  end.

(** The parts [pathlib] keeps of a path: it drops empty components and
    single dots, and keeps double dots. *)
Definition path_parts (s : string) : list string :=
  List.filter (fun c => negb (String.eqb c "" || String.eqb c "."))
    (split_slash s).

(** The root of a POSIX path: a slash, or two slashes for a path that
    begins with exactly two. *)
Definition path_root (s : string) : string :=
  match s with
  | String "/"%char (String "/"%char (String "/"%char _)) => "/"
  | String "/"%char (String "/"%char _) => "//"
  | String "/"%char _ => "/"
  | _ => ""
  end.

(** [str(pathlib.Path(s))] on POSIX. *)
Definition path_norm (s : string) : string :=
  match path_root s, path_parts s with
  | EmptyString, [] => "."
  | root, parts => root +:+ str_join "/" parts
  end.

(** [pathlib.Path(s).name]: the last part, or the empty string. *)
Definition path_name (s : string) : string := List.last (path_parts s) "".

(** A NUL character in a path makes [open] and [os.makedirs] raise
    [ValueError] before the operating system is asked. *)
Definition has_nul (s : string) : bool := str_contains_char "000"%char s.

(** [json.load(open(path))] *)
Definition json_load (fs : gmap string file) (path : string) : result json :=
  match fs !! path with
  | None => Raise OSError
  | Some NotJson => Raise JSONDecodeError
  | Some (Doc v) => Ok v
  end.

End Py.

(* ===================================================================== *)
(** ** The splitter: [scripts/explode_json.py] *)
(* ===================================================================== *)

Module Explode.
Import Py.

Inductive event :=
| Printed (line : string)
| MadeDirs (dir : string)
| Wrote (path : string) (obj : json).

Record state := {
  files : gmap string file;
  events : list event
}.

(** What the operating system answers when the script asks it to create
    the output directory and to open a file for writing: the exception
    raised, or [None]. [open_error n p] is the answer after [n] earlier
    events. *)
Class Disk := {
  makedirs_error : string -> option exn;
  open_error : nat -> string -> option exn
}.

Definition emit (ev : event) (st : state) : state :=
  {| files := files st; events := events st ++ [ev] |}.

(** [os.makedirs(d, exist_ok=True)]: the exception it raises, if any.
    An empty name is refused with [FileNotFoundError], an [OSError]. *)
Definition makedirs `{!Disk} (d : string) : option exn :=
  if has_nul d then Some ValueError
  else if String.eqb d "" then Some OSError
  else makedirs_error d.

(** [open(path, "w")]: the exception it raises, if any. *)
Definition open_w `{!Disk} (n : nat) (path : string) : option exn :=
  if has_nul path then Some ValueError else open_error n path.

(** The state after [obj] was written to [path]. *)
Definition store (path : string) (obj : json) (st : state) : state :=
  {| files := <[path := Doc obj]> (files st);
     events := events st ++ [Wrote path obj] |}.

(** [with open(path, "w") as out: json.dump(obj, out, ...)] *)
Definition dump `{!Disk} (path : string) (obj : json) (st : state)
  : result state :=
  match open_w (length (events st)) path with
  | Some e => Raise e
  | None => Ok (store path obj st)
  end.

(** [with open(path, "r") as f: json.load(f)] *)
Definition load (fs : gmap string file) (path : string) : result json :=
  if has_nul path then Raise ValueError else json_load fs path.

(** The character class of the sanitising pattern: backslash, slash,
    colon, double quote, star, question mark, angle brackets, bar. *)
Definition unsafe_char (c : ascii) : bool :=
  existsb (ascii_eqb c)
    ["\"; "/"; ":"; "034"; "*"; "?"; "<"; ">"; "|"]%char.

(** [re.sub(pattern, "_", name)]: every maximal run of unsafe characters
    becomes one underscore. [in_run] tells that the previous character was
    unsafe. *)
Fixpoint sanitize_from (in_run : bool) (s : string) : string :=
  match s with
  | EmptyString => EmptyString
  | String a s' =>
      if unsafe_char a then
        if in_run then sanitize_from true s'
        else String "_"%char (sanitize_from true s')
      else String a (sanitize_from false s')
  end.

Definition sanitize (name : string) : string := sanitize_from false name.

Definition out_path_of `{!PyRuntime} (output_dir : string) (v : json) : string :=
  let name := py_str v in
  let safe_name := sanitize name in
  path_join output_dir (safe_name +:+ ".json").

(** The body of [for obj in data]. *)
Definition explode_obj `{!PyRuntime} `{!Disk} (field output_dir : string)
    (obj : json) (st : state) : result state :=
  present ← py_contains field obj;
  if negb present then
    Ok (emit (Printed ("Skipping object without field " +:+ field)) st)
  else
    v ← py_getitem obj field;
    dump (out_path_of output_dir v) obj st.

(** The loop; an exception ends it and keeps what was written so far. *)
Fixpoint explode_loop `{!PyRuntime} `{!Disk} (field output_dir : string)
    (data : list json) (st : state) : state * option exn :=
  match data with
  | [] => (st, None)
  | obj :: rest =>
      match explode_obj field output_dir obj st with
      | Ok st' => explode_loop field output_dir rest st'
      | Raise e => (st, Some e)
      end
  end.

Inductive exit :=
| Finished
| SysExit (status : Z)
| Uncaught (e : exn).

Definition arg (argv : list string) (i : nat) : string := nth i argv "".

(** The key field: the default, or the one given after [--field]. *)
Definition field_of (argv : list string) : string :=
  if (5 <=? Z.of_nat (length argv)) && String.eqb (arg argv 3) "--field"
  then arg argv 4 else "knowledge_piece_name".

(** The whole script, from [sys.argv] and the file system. *)
Definition main `{!PyRuntime} `{!Disk} (argv : list string)
    (fs : gmap string file) : state * exit :=
  let st0 := {| files := fs; events := [] |} in
  if Z.of_nat (length argv) <? 3 then
    (emit (Printed
       "Usage: explode_json.py input.json output_dir [--field fieldname]") st0,
     SysExit 1)
  else
    let input_file := arg argv 1 in
    let output_dir := arg argv 2 in
    let field := field_of argv in
    match makedirs output_dir with
    | Some e => (st0, Uncaught e)
    | None =>
        let st1 := emit (MadeDirs output_dir) st0 in
        match load fs input_file with
        | Raise e => (st1, Uncaught e)
        | Ok (JArr data) =>
            match explode_loop field output_dir data st1 with
            | (st2, Some e) => (st2, Uncaught e)
            | (st2, None) =>
                (emit (Printed ("Exploded "
                                +:+ int_str (Z.of_nat (length data))
                                +:+ " objects into " +:+ output_dir +:+ "/"))
                   st2,
                 Finished)
            end
        | Ok _ =>
            (emit (Printed "Input JSON must be an array of objects.") st1,
             SysExit 1)
        end
    end.

End Explode.

(* ===================================================================== *)
(** ** The enricher: [scripts/enrich-knowledge-content.py] *)
(* ===================================================================== *)

Module Enrich.
Import Py.

Inductive level := INFO | WARNING | ERROR.

(** The [pathlib.Path] that [Path(parent) / entry] makes, as [glob]
    does for the entries of a folder. *)
Record path := Path { parent : string; entry : string }.

(** [str(p)], which is what [open(p)] hands to the operating system. *)
Definition path_str (p : path) : string :=
  path_norm (path_join (parent p) (entry p)).

(** [p.name] *)
Definition name (p : path) : string :=
  path_name (path_join (parent p) (entry p)).

(** How [subprocess.run(..., timeout=120, check=True)] ends. *)
Inductive completed :=
| Stdout (text : string)
| TimeoutExpired
| CalledProcessError (returncode : Z) (stderr : string)
| OtherError.

(** The world outside the script. [dir_exists p] is [Path(p).exists()];
    [listdir] lists a folder in the order the file system returns;
    [claude n prompt] is the outcome of the call made after [n] earlier
    calls; [time_time n] is the clock read after [n] earlier events;
    [hashing] orders the members of the processed set. *)
Class Host := {
  hashing :: Hashing;
  dir_exists : string -> bool;
  listdir : string -> list string;
  claude : nat -> string -> completed;
  time_time : nat -> pyfloat
}.

(** What the script does to the outside, oldest first. Log records keep
    the fixed part of the message; the text of a caught exception is not
    rendered. *)
Inductive event :=
| Logged (lvl : level) (msg : string)
| Opened (file_path : string)
| Ran (prompt : string)
| Dumped (file_path : string) (v : json) (ensure_ascii : bool)
| Slept (seconds : Z).

(** The enricher object and the file system it works on. *)
Record state := {
  input_folder : string;
  progress_log_file : string;
  processed_files : pyset;
  files : gmap string file;
  trace : list event
}.

Definition with_processed (s : pyset) (st : state) : state :=
  {| input_folder := input_folder st;
     progress_log_file := progress_log_file st;
     processed_files := s;
     files := files st;
     trace := trace st |}.

Definition with_files (fs : gmap string file) (st : state) : state :=
  {| input_folder := input_folder st;
     progress_log_file := progress_log_file st;
     processed_files := processed_files st;
     files := fs;
     trace := trace st |}.

Definition with_trace (t : list event) (st : state) : state :=
  {| input_folder := input_folder st;
     progress_log_file := progress_log_file st;
     processed_files := processed_files st;
     files := files st;
     trace := t |}.

(** Methods run in a state and may raise; the state reached is kept. *)
Definition io (A : Type) : Type := state -> result A * state.

#[global] Instance io_ret : MRet io := fun A a st => (Ok a, st).

#[global] Instance io_bind : MBind io := fun A B f m st =>
  match m st with
  | (Ok a, st') => f a st'
  | (Raise e, st') => (Raise e, st')
  end.

Definition lift {A : Type} (r : result A) : io A := fun st => (r, st).

Definition get {A : Type} (f : state -> A) : io A := fun st => (Ok (f st), st).

Definition modify (f : state -> state) : io unit := fun st => (Ok tt, f st).

(** [try: m except Exception as e: h e] *)
Definition try_except {A : Type} (m : io A) (h : exn -> io A) : io A :=
  fun st =>
    match m st with
    | (Ok a, st') => (Ok a, st')
    | (Raise e, st') => h e st'
    end.

Definition emit (ev : event) : io unit :=
  modify (fun st => with_trace (trace st ++ [ev]) st).

Definition logger (lvl : level) (msg : string) : io unit :=
  emit (Logged lvl msg).

(** [with open(p, 'r') as f: json.load(f)] *)
Definition read_json (p : string) : io json :=
  emit (Opened p);;
  fs ← get files;
  lift (json_load fs p).

(** [with open(p, 'w') as f: json.dump(v, f, indent=2, ensure_ascii=...)] *)
Definition write_json (p : string) (v : json) (ensure_ascii : bool) : io unit :=
  modify (fun st =>
    with_trace (trace st ++ [Dumped p v ensure_ascii])
      (with_files (<[p := Doc v]> (files st)) st)).

Definition len_str {A : Type} (l : list A) : string :=
  int_str (Z.of_nat (length l)).

(** [_load_progress] *)
Definition load_progress `{!Hashing} : io unit :=
  fs ← get files;
  p ← get progress_log_file;
  match fs !! p with
  | Some _ =>
      try_except
        (progress_data ← read_json p;
         listed ← lift (py_get progress_data "processed_files" (JArr []));
         s ← lift (py_set listed);
         modify (with_processed s);;
         logger INFO ("Loaded progress: " +:+ len_str s
                      +:+ " files already processed"))
        (fun e =>
           logger WARNING "Failed to load progress file: ";;
           modify (with_processed []))
  | None => logger INFO "No progress file found, starting fresh"
  end.

(** The document [_save_progress] builds. *)
Definition progress_data (s : pyset) (now : pyfloat) : json :=
  JObj [ ("processed_files", JArr s);
         ("last_updated", JFloat now);
         ("total_processed", JInt (Z.of_nat (length s))) ].

(** [_save_progress] *)
Definition save_progress `{!Host} : io unit :=
  try_except
    (s ← get processed_files;
     t ← get trace;
     p ← get progress_log_file;
     write_json p (progress_data s (time_time (length t))) true)
    (fun e => logger ERROR "Failed to save progress: ").

Definition ends_with (suffix s : string) : bool :=
  String.prefix (String.rev suffix) (String.rev s).

(** [self.input_folder.glob("*.json")] *)
Definition glob_json `{!Host} (folder : string) : list path :=
  map (Path folder) (List.filter (ends_with ".json") (listdir folder)).

Definition unprocessed (s : pyset) (f : path) : bool :=
  negb (set_mem (JStr (name f)) s).

(** [_get_json_files] *)
Definition get_json_files `{!Host} : io (list path) :=
  folder ← get input_folder;
  s ← get processed_files;
  let all_json_files := glob_json folder in
  let unprocessed_files := List.filter (unprocessed s) all_json_files in
  logger INFO ("Found " +:+ len_str all_json_files +:+ " JSON files total");;
  logger INFO ("Found " +:+ len_str unprocessed_files +:+ " unprocessed files");;
  mret unprocessed_files.

(** The fixed lines of the prompt, before and after the record's fields. *)
Definition prompt_intro : list string :=
  [ "You are helping to categorize knowledge content for the Phoenix Framework, an interactive decision sprint system designed to help startup founders break through analysis paralysis and make high-stakes decisions with confidence.";
    "";
    "PROJECT CONTEXT:";
    "The Phoenix Framework addresses the acute pain of decision paralysis that startup founders experience. It uses a semantically searchable knowledge base of mental models, cognitive biases, and strategic frameworks to guide founders from chaotic uncertainty to confident, committed action. The system needs to quickly surface the most relevant knowledge content based on the founder's specific situation, persona, startup phase, and problem category.";
    "";
    "KNOWLEDGE CONTENT TO ANALYZE:" ].

Definition prompt_task : list string :=
  [ "";
    "CATEGORIZATION TASK:";
    "Based on this content and its relevance to helping startup founders make better decisions, please suggest appropriate values for these targeting fields:";
    "";
    "1. target_persona: Select from [founder, executive, investor, product_manager]";
    "   - Which personas would most benefit from this knowledge when facing a difficult decision?";
    "   - Founders are our primary audience, but consider other roles that might find this knowledge valuable";
    "   - You can select multiple values";
    "";
    "2. startup_phase: Select from [ideation, seed, growth, scale-up, crisis]";
    "   - At which startup phases would this knowledge be most relevant for decision-making?";
    "   - Consider when founders typically face the types of problems this knowledge addresses";
    "   - You can select multiple values";
    "";
    "3. problem_category: Select from [pivot, hiring, fundraising, co-founder_conflict, product-market_fit, go-to-market, team_and_culture, operations, competitive_strategy, pricing, risk_management]";
    "   - Which problem categories does this knowledge help address when founders are stuck in analysis paralysis?";
    "   - Think about the specific high-stakes decisions this knowledge would inform";
    "   - You can select multiple values";
    "";
    "Please respond with ONLY a valid JSON object in this exact format:";
    "{";
    "    " +:+ dq +:+ "target_persona" +:+ dq +:+ ": [" +:+ dq +:+ "persona1" +:+ dq +:+ ", " +:+ dq +:+ "persona2" +:+ dq +:+ "],";
    "    " +:+ dq +:+ "startup_phase" +:+ dq +:+ ": [" +:+ dq +:+ "phase1" +:+ dq +:+ ", " +:+ dq +:+ "phase2" +:+ dq +:+ "],";
    "    " +:+ dq +:+ "problem_category" +:+ dq +:+ ": [" +:+ dq +:+ "category1" +:+ dq +:+ ", " +:+ dq +:+ "category2" +:+ dq +:+ "]";
    "}";
    "";
    "Do not include any explanation or additional text, just the JSON object." ].

Definition nl : string := String "010"%char "".

(** [_create_claude_prompt] *)
Definition create_claude_prompt `{!PyRuntime} (knowledge_data : json)
  : result string :=
  title ← py_get knowledge_data "knowledge_piece_name" (JStr "Unknown");
  main_category ← py_get knowledge_data "main_category" (JStr "");
  subcategory ← py_get knowledge_data "subcategory" (JStr "");
  definition ← py_get knowledge_data "definition" (JStr "");
  extra_content ← py_get knowledge_data "extra_content" (JStr "");
  shown ← py_prefix extra_content 500;
  n ← py_len extra_content;
  mret (str_join nl
    (prompt_intro ++
     [ "Title: " +:+ py_str title;
       "Main Category: " +:+ py_str main_category;
       "Subcategory: " +:+ py_str subcategory;
       "Definition: " +:+ py_str definition;
       "Extra Content: " +:+ py_str shown
         +:+ (if 500 <? n then "..." else "") ] ++
     prompt_task)).

Definition calls_so_far (t : list event) : nat :=
  length (List.filter (fun ev => match ev with Ran _ => true | _ => false end) t).

(** [_call_claude_code]: [None] is Python's [None]. *)
Definition call_claude_code `{!PyRuntime} `{!Host} (prompt : string)
  : io (option json) :=
  t ← get trace;
  emit (Ran prompt);;
  match claude (calls_so_far t) prompt with
  | Stdout text =>
      let response_text := strip text in
      let start_idx := str_find "{" response_text in
      let end_idx := str_rfind "}" response_text + 1 in
      if (0 <=? start_idx) && (start_idx <? end_idx) then
        let json_str := str_slice response_text start_idx end_idx in
        match json_loads json_str with
        | Some v => mret (Some v)
        | None =>
            logger ERROR "Failed to parse Claude response as JSON: ";;
            mret None
        end
      else
        logger ERROR ("No valid JSON found in Claude response: "
                      +:+ response_text);;
        mret None
  | TimeoutExpired =>
      logger ERROR "Claude Code call timed out";;
      mret None
  | CalledProcessError returncode stderr =>
      logger ERROR ("Claude Code failed with return code "
                    +:+ int_str returncode +:+ ": " +:+ stderr);;
      mret None
  | OtherError =>
      logger ERROR "Error calling Claude Code: ";;
      mret None
  end.

Definition expected_fields : list string :=
  ["target_persona"; "startup_phase"; "problem_category"].

Definition valid_values (field : string) : list string :=
  if String.eqb field "target_persona" then
    ["founder"; "executive"; "investor"; "product_manager"]
  else if String.eqb field "startup_phase" then
    ["ideation"; "seed"; "growth"; "scale-up"; "crisis"]
  else if String.eqb field "problem_category" then
    ["pivot"; "hiring"; "fundraising"; "co-founder_conflict";
     "product-market_fit"; "go-to-market"; "team_and_culture";
     "operations"; "competitive_strategy"; "pricing"; "risk_management"]
  else [].

(** [value in valid_set] for a set of strings: the value is hashed first. *)
Definition in_valid_set (value : json) (valid_set : list string) : result bool :=
  if hashable value
  then Ok (existsb (fun s => py_eqb value (JStr s)) valid_set)
  else Raise TypeError.

(** [type(v)] as an f-string prints it. *)
Definition type_str (v : json) : string :=
  "<class '" +:+
  match v with
  | JNull => "NoneType"
  | JBool _ => "bool"
  | JInt _ => "int"
  | JFloat _ => "float"
  | JStr _ => "str"
  | JArr _ => "list"
  | JObj _ => "dict"
  end +:+ "'>".

(** [for value in field_value] of [_validate_claude_response]. The
    message stops before the set, which prints in no specified order. *)
Fixpoint check_values `{!PyRuntime} (field : string) (valid_set : list string)
    (values : list json) : io bool :=
  match values with
  | [] => mret true
  | value :: rest =>
      ok ← lift (in_valid_set value valid_set);
      if negb ok then
        logger ERROR ("Invalid value '" +:+ py_str value +:+ "' for field '"
                      +:+ field +:+ "'. Valid values: ");;
        mret false
      else check_values field valid_set rest
  end.

(** [for field in expected_fields] of [_validate_claude_response]. *)
Fixpoint check_fields `{!PyRuntime} (response : json) (fields : list string)
  : io bool :=
  match fields with
  | [] => mret true
  | field :: rest =>
      present ← lift (py_contains field response);
      if negb present then
        logger ERROR ("Missing field '" +:+ field +:+ "' in Claude response");;
        mret false
      else
        field_value ← lift (py_getitem response field);
        match field_value with
        | JArr values =>
            ok ← check_values field (valid_values field) values;
            if (ok : bool) then check_fields response rest else mret false
        | _ =>
            logger ERROR ("Field '" +:+ field +:+ "' should be a list, got "
                          +:+ type_str field_value);;
            mret false
        end
  end.

(** [_validate_claude_response] *)
Definition validate_claude_response `{!PyRuntime} (response : json) : io bool :=
  check_fields response expected_fields.

(** [all(field in content for field in fields)] *)
Fixpoint all_in (content : json) (fields : list string) : result bool :=
  match fields with
  | [] => Ok true
  | field :: rest =>
      present ← py_contains field content;
      if (present : bool) then all_in content rest else Ok false
  end.

(** [content.update(response)] *)
Definition py_update (content response : json) : result json :=
  match content, response with
  | JObj d, JObj r => Ok (JObj (dict_update d r))
  | JObj _, _ => Raise TypeError
  | _, _ => Raise AttributeError
  end.

(** [_enrich_file] *)
Definition enrich_file `{!PyRuntime} `{!Host} (file_path : path) : io bool :=
  logger INFO ("Processing file: " +:+ name file_path);;
  try_except
    (content ← read_json (path_str file_path);
     complete ← lift (all_in content expected_fields);
     if (complete : bool) then
       logger INFO ("File " +:+ name file_path
                    +:+ " already has required fields, skipping");;
       mret true
     else
       prompt ← lift (create_claude_prompt content);
       claude_response ← call_claude_code prompt;
       match claude_response with
       | None =>
           logger ERROR ("Failed to get response from Claude for "
                         +:+ name file_path);;
           mret false
       | Some response =>
           valid ← validate_claude_response response;
           if negb valid then
             logger ERROR ("Invalid response from Claude for "
                           +:+ name file_path);;
             mret false
           else
             content' ← lift (py_update content response);
             write_json (path_str file_path) content' false;;
             logger INFO ("Successfully enriched " +:+ name file_path);;
             tp ← lift (py_getitem response "target_persona");
             logger INFO ("Added - target_persona: " +:+ py_str tp);;
             sp ← lift (py_getitem response "startup_phase");
             logger INFO ("Added - startup_phase: " +:+ py_str sp);;
             pc ← lift (py_getitem response "problem_category");
             logger INFO ("Added - problem_category: " +:+ py_str pc);;
             mret true
       end)
    (fun e =>
       logger ERROR ("Error processing " +:+ name file_path +:+ ": ");;
       mret false).

(** The loop of [enrich_all_files]; [i] counts from 1, [counts] are the
    successes and the failures so far. *)
Fixpoint enrich_each `{!PyRuntime} `{!Host} (total_files i : Z)
    (json_files : list path) (counts : Z * Z) : io (Z * Z) :=
  match json_files with
  | [] => mret counts
  | file_path :: rest =>
      logger INFO (nl +:+ "--- Processing file " +:+ int_str i +:+ "/"
                   +:+ int_str total_files +:+ " ---");;
      success ← enrich_file file_path;
      counts' ←
        (if (success : bool) then
           modify (fun st =>
             with_processed
               (set_add (JStr (name file_path)) (processed_files st)) st);;
           save_progress;;
           mret (fst counts + 1, snd counts)
         else mret (fst counts, snd counts + 1));
      (if i <? total_files then
         logger INFO "Waiting 2 seconds before next file...";;
         emit (Slept 2)
       else mret tt);;
      enrich_each total_files (i + 1) rest counts'
  end.

(** [enrich_all_files] *)
Definition enrich_all_files `{!PyRuntime} `{!Host} : io unit :=
  json_files ← get_json_files;
  match json_files with
  | [] => logger INFO "No files to process!"
  | _ =>
      let total_files := Z.of_nat (length json_files) in
      logger INFO ("Starting enrichment of " +:+ int_str total_files
                   +:+ " files...");;
      counts ← enrich_each total_files 1 json_files (0, 0);
      logger INFO (nl +:+ "=== ENRICHMENT COMPLETE ===");;
      logger INFO ("Total files processed: " +:+ int_str total_files);;
      logger INFO ("Successful: " +:+ int_str (fst counts));;
      logger INFO ("Failed: " +:+ int_str (snd counts));;
      p ← get progress_log_file;
      logger INFO ("Progress saved to: " +:+ p)
  end.

(** [KnowledgeContentEnricher.__init__] *)
Definition init `{!Host} : io unit :=
  folder ← get input_folder;
  if negb (dir_exists folder) then lift (Raise ValueError)
  else load_progress.

(** The object when [__init__] has made its two paths and the empty
    set, before it looks at the file system. *)
Definition blank (folder log : string) (fs : gmap string file) : state :=
  {| input_folder := path_norm folder;
     progress_log_file := path_norm log;
     processed_files := [];
     files := fs;
     trace := [] |}.

(** [main], after the arguments are parsed: the final state and the exit
    status. *)
Definition main `{!PyRuntime} `{!Host} (folder log : string)
    (fs : gmap string file) : state * Z :=
  match try_except (init;; enrich_all_files;; mret 0)
          (fun e => logger ERROR "Fatal error: ";; mret 1)
          (blank folder log fs) with
  | (Ok status, st) => (st, status)
  | (Raise _, st) => (st, 1)
  end.

End Enrich.

(* ===================================================================== *)
(** ** Reference definitions: what the properties below observe *)
(* ===================================================================== *)

Module ExplodeSpec.
Import Py Explode.

(** The paths a run wrote, oldest first. *)
Fixpoint written (evs : list event) : list string :=
  match evs with
  | [] => []
  | Wrote p _ :: evs' => p :: written evs'
  | _ :: evs' => written evs'
  end.

(** Each path once, at the place of its last occurrence. *)
Fixpoint dedup_paths (ps : list string) : list string :=
  match ps with
  | [] => []
  | p :: ps' =>
      if existsb (String.eqb p) ps' then dedup_paths ps'
      else p :: dedup_paths ps'
  end.

Definition doc_at (fs : gmap string file) (p : string) : option json :=
  match fs !! p with
  | Some (Doc v) => Some v
  | _ => None
  end.

(** Recombining: the objects found in the files the run wrote. *)
Definition collect (st : state) : list json :=
  omap (doc_at (files st)) (dedup_paths (written (events st))).

(** The characters that are unsafe in a file name, by their codes: the
    double quote (34), the star (42), the slash (47), the colon (58), the
    angle brackets (60, 62), the question mark (63), the backslash (92)
    and the bar (124). *)
Definition unsafe_code (n : Z) : bool :=
  (n =? 34) || (n =? 42) || (n =? 47) || (n =? 58) || (n =? 60)
  || (n =? 62) || (n =? 63) || (n =? 92) || (n =? 124).

(** A name with its unsafe characters blanked out. *)
Fixpoint marked (s : string) : list (option ascii) :=
  match s with
  | EmptyString => []
  | String c s' =>
      (if unsafe_code (code c) then None else Some c) :: marked s'
  end.

(** Every run of blanks becomes one underscore. *)
Fixpoint fill_runs (cs : list (option ascii)) : string :=
  match cs with
  | [] => EmptyString
  | Some c :: rest => String c (fill_runs rest)
  | None :: rest =>
      match rest with
      | None :: _ => fill_runs rest
      | _ => String "_"%char (fill_runs rest)
      end
  end.

(** In the spec's words: the name with its unsafe characters replaced,
    one underscore for each run of them. *)
Definition replace_runs (name : string) : string := fill_runs (marked name).

(** The file of an element whose key field has the value [v]. *)
Definition file_of `{!PyRuntime} (output_dir : string) (v : json) : string :=
  path_join output_dir (replace_runs (py_str v) +:+ ".json").

(** The path an element is written to; [None] for an element the loop
    skips or raises on before it comes to write. *)
Definition target `{!PyRuntime} (field output_dir : string) (obj : json)
  : option string :=
  match py_contains field obj with
  | Ok true =>
      match py_getitem obj field with
      | Ok v => Some (file_of output_dir v)
      | Raise _ => None
      end
  | _ => None
  end.

(** The operating system lets the run open the file of every element of
    [data], whenever it is asked. *)
Definition writable `{!PyRuntime} `{!Disk} (field output_dir : string)
    (data : list json) : Prop :=
  forall n obj p,
    In obj data -> target field output_dir obj = Some p -> open_w n p = None.

Definition writes `{!PyRuntime} (field output_dir : string) (data : list json)
  : list (string * json) :=
  omap (fun obj => p ← target field output_dir obj; Some (p, obj)) data.

(** Of the writes to one path, the last. *)
Fixpoint last_writes (ws : list (string * json)) : list json :=
  match ws with
  | [] => []
  | (p, obj) :: ws' =>
      if existsb (String.eqb p) (ws'.*1) then last_writes ws'
      else obj :: last_writes ws'
  end.

(** The elements a finished run leaves on disk: those that have the key
    field, except the ones a later element overwrites. *)
Definition kept `{!PyRuntime} (field output_dir : string) (data : list json)
  : list json :=
  last_writes (writes field output_dir data).

(** The sanitised name of an element that has the key field. *)
Definition safe_name `{!PyRuntime} (field : string) (obj : json) : string :=
  match py_getitem obj field with
  | Ok v => replace_runs (py_str v)
  | Raise _ => ""
  end.

Definition has_field (field : string) (obj : json) : Prop :=
  exists d v, obj = JObj d /\ dict_lookup field d = Some v.

(** One write, as a step on the file map. *)
Definition put (fs : gmap string file) (w : string * json) : gmap string file :=
  <[w.1 := Doc w.2]> fs.

(** [path_join] with a second component that does not start with a slash
    puts a prefix, which only depends on the folder, before it. *)
Definition join_prefix (a : string) : string :=
  match String.rev a with
  | EmptyString => ""
  | String "/"%char _ => a
  | _ => a +:+ "/"
  end.

Definition starts_with_slash (b : string) : bool :=
  match b with
  | String "/"%char _ => true
  | _ => false
  end.

(** Inputs of the closed examples. *)
Definition one_record : json :=
  JObj [("knowledge_piece_name", JStr "Sunk Cost Fallacy")].

Definition no_name_record : json := JObj [("title", JStr "Anchoring")].

Definition sample_argv : list string := ["explode_json.py"; "in.json"; "out"].

Definition numbered_record : json := JObj [("knowledge_piece_name", JInt 42)].

(** A record whose key field holds a list: [str] of it has a slash and
    two colons. *)
Definition listed_record : json :=
  JObj [("knowledge_piece_name", JArr [JStr "a/b::c"; JNull])].

(** A disk on which nothing fails. *)
Definition plain_disk : Disk :=
  {| makedirs_error := fun _ => None; open_error := fun _ _ => None |}.

(** A disk on which no file can be opened for writing. *)
Definition full_disk : Disk :=
  {| makedirs_error := fun _ => None; open_error := fun _ _ => Some OSError |}.

End ExplodeSpec.

Module EnrichSpec.
Import Py Enrich.

(** The text from the first opening brace on. *)
Fixpoint from_first_open (s : string) : option string :=
  match s with
  | EmptyString => None
  | String a s' => if ascii_eqb a "{" then Some s else from_first_open s'
  end.

(** The text up to the last closing brace. *)
Fixpoint upto_last_close (s : string) : option string :=
  match s with
  | EmptyString => None
  | String a s' =>
      match upto_last_close s' with
      | Some r => Some (String a r)
      | None => if ascii_eqb a "}" then Some (String a "") else None
      end
  end.

(** The span from the first opening brace to the last closing brace. *)
Definition brace_span (s : string) : option string :=
  from_first_open s ≫= upto_last_close.

(** After an opening brace with [depth] more braces open: the text up to
    the brace that closes it. *)
Fixpoint close_at (depth : nat) (s : string) : option string :=
  match s with
  | EmptyString => None
  | String a s' =>
      if ascii_eqb a "}" then
        match depth with
        | O => Some (String a "")
        | S d => String a <$> close_at d s'
        end
      else if ascii_eqb a "{" then String a <$> close_at (S depth) s'
      else String a <$> close_at depth s'
  end.

(** In the spec's words: the first balanced object of a text, from an
    opening brace to the brace that closes it. *)
Fixpoint first_balanced_object (s : string) : option string :=
  match s with
  | EmptyString => None
  | String a s' =>
      if ascii_eqb a "{" then
        match close_at 0 s' with
        | Some body => Some (String a body)
        | None => first_balanced_object s'
        end
      else first_balanced_object s'
  end.

(** The slice the code takes, when its guard holds. *)
Definition payload (t : string) : option string :=
  let start_idx := str_find "{" t in
  let end_idx := str_rfind "}" t + 1 in
  if (0 <=? start_idx) && (start_idx <? end_idx)
  then Some (str_slice t start_idx end_idx) else None.

(** What [_call_claude_code] makes of the outcome of the tool. *)
Definition answer_of `{!PyRuntime} (c : completed) : option json :=
  match c with
  | Stdout text => brace_span text ≫= json_loads
  | _ => None
  end.

(** A log record other than the line that opens the processing of a
    file (the only message that begins with these letters). *)
Definition is_note (ev : event) : Prop :=
  match ev with
  | Logged _ msg => String.prefix "Proc" msg = false
  | _ => False
  end.

(** The record with which [_enrich_file] begins its work on a file. *)
Definition processing (file_name : string) : event :=
  Logged INFO ("Processing file: " +:+ file_name).

(** In the spec's words: a response is accepted when each expected field
    is present, is a sequence, and holds only members of the field's
    enumeration. *)
Definition value_ok (valid_set : list string) (value : json) : bool :=
  match value with
  | JStr s => existsb (String.eqb s) valid_set
  | _ => false
  end.

Definition field_ok (response : json) (field : string) : bool :=
  match response with
  | JObj d =>
      match dict_lookup field d with
      | Some (JArr values) => forallb (value_ok (valid_values field)) values
      | _ => false
      end
  | _ => false
  end.

Definition conforms (response : json) : bool :=
  forallb (field_ok response) expected_fields.

(** The three ways in which a response can fail the check. *)
Inductive violates (r : list (string * json)) : Prop :=
| missing_field (field : string) :
    In field expected_fields ->
    dict_lookup field r = None ->
    violates r
| not_a_sequence (field : string) (v : json) :
    In field expected_fields ->
    dict_lookup field r = Some v ->
    (forall xs, v <> JArr xs) ->
    violates r
| outside_enumeration (field : string) (xs : list json) (x : json) :
    In field expected_fields ->
    dict_lookup field r = Some (JArr xs) ->
    In x xs ->
    (forall s, x = JStr s -> ~ In s (valid_values field)) ->
    violates r.

(** The value a key has after [update]: that of its last occurrence. *)
Fixpoint dict_last (k : string) (d : list (string * json)) : option json :=
  match d with
  | [] => None
  | (k', v) :: d' =>
      match dict_last k d' with
      | Some w => Some w
      | None => if String.eqb k' k then Some v else None
      end
  end.

(** The set [_load_progress] leaves in [processed_files], starting from
    the empty set. *)
Definition loaded `{!Hashing} (fs : gmap string file) (log : string) : pyset :=
  match fs !! log with
  | Some (Doc v) =>
      match py_get v "processed_files" (JArr []) ≫= py_set with
      | Ok s => s
      | Raise _ => []
      end
  | _ => []
  end.

(** The files [_get_json_files] returns for a set of processed names. *)
Definition pending `{!Host} (folder : string) (s : pyset) : list path :=
  List.filter (unprocessed s) (glob_json folder).

(** What a run over the files [todo] may do: open and rewrite these files,
    call the tool, write the progress log (the only dump with
    [ensure_ascii] left on), sleep, and log. *)
Definition run_event (todo : list path) (log : string) (ev : event) : Prop :=
  match ev with
  | Logged _ msg =>
      (exists f, In f todo /\ ev = processing (name f)) \/
      String.prefix "Proc" msg = false
  | Opened p => p = log \/ exists f, In f todo /\ p = path_str f
  | Ran _ => True
  | Dumped p v true => p = log /\ exists s now, v = progress_data s now
  | Dumped p v false => exists f, In f todo /\ p = path_str f
  | Slept _ => True
  end.

(** Every call of the tool comes right after the opening of one of the
    files [todo]; [prev] is the event before the trace. *)
Fixpoint calls_follow_open (todo : list path) (prev : option event)
    (t : list event) : Prop :=
  match t with
  | [] => True
  | ev :: t' =>
      match ev, prev with
      | Ran _, Some (Opened p) => exists f, In f todo /\ p = path_str f
      | Ran _, _ => False
      | _, _ => True
      end /\ calls_follow_open todo (Some ev) t'
  end.

(** What the loop of [enrich_all_files] does once [_enrich_file] has
    returned [success] for the file numbered [i] of [total_files]. *)
Definition after_file `{!Host} (success : bool) (total_files i : Z)
    (file_path : path) (st : state) : state :=
  let st1 :=
    if success then
      let s := set_add (JStr (name file_path)) (processed_files st) in
      let doc := progress_data s (time_time (length (trace st))) in
      with_trace (trace st ++ [Dumped (progress_log_file st) doc true])
        (with_files (<[progress_log_file st := Doc doc]> (files st))
           (with_processed s st))
    else st in
  if i <? total_files then
    with_trace
      (trace st1 ++ [Logged INFO "Waiting 2 seconds before next file...";
                     Slept 2]) st1
  else st1.

(** In the spec's words: a JSON file of a directory, by its name. *)
Fixpoint json_file_name (n : string) : bool :=
  String.eqb n ".json" ||
  match n with
  | EmptyString => false
  | String _ n' => json_file_name n'
  end.

(** The names a progress log lists. *)
Definition listed (fs : gmap string file) (log file_name : string) : bool :=
  match fs !! log with
  | Some (Doc (JObj d)) =>
      match dict_lookup "processed_files" d with
      | Some (JArr names) => existsb (is_str file_name) names
      | _ => false
      end
  | _ => false
  end.

(** A progress log whose [processed_files], when present, is a list of
    hashable values (strings, by the format of the log); a log that is
    absent, unreadable or not an object lists nothing. *)
Definition log_wf (fs : gmap string file) (log : string) : bool :=
  match fs !! log with
  | Some (Doc (JObj d)) =>
      match dict_lookup "processed_files" d with
      | Some (JArr names) => forallb hashable names
      | Some _ => false
      | None => true
      end
  | _ => true
  end.

(** In the spec's words: the pending files are the JSON files of the
    folder, in listing order, whose names the log does not list. *)
Definition unlisted_json_files `{!Host} (folder : string)
    (fs : gmap string file) (log : string) : list path :=
  List.filter (fun f => negb (listed fs log (name f)))
    (map (Path folder) (List.filter json_file_name (listdir folder))).

End EnrichSpec.

(** Instances for closed examples. [sample_loads] is [json.loads] on the
    texts the examples use. *)
Module Sample.
Import Py.

Definition empty_answer : string :=
  "{" +:+ dq +:+ "target_persona" +:+ dq +:+ ": [], "
      +:+ dq +:+ "startup_phase" +:+ dq +:+ ": [], "
      +:+ dq +:+ "problem_category" +:+ dq +:+ ": []}".

Definition empty_response : json :=
  JObj [ ("target_persona", JArr []);
         ("startup_phase", JArr []);
         ("problem_category", JArr []) ].

Definition wide_answer : string :=
  "{" +:+ dq +:+ "target_persona" +:+ dq +:+ ": [" +:+ dq +:+ "founder" +:+ dq
      +:+ "], "
      +:+ dq +:+ "startup_phase" +:+ dq +:+ ": [" +:+ dq +:+ "seed" +:+ dq
      +:+ "], "
      +:+ dq +:+ "problem_category" +:+ dq +:+ ": [" +:+ dq +:+ "pricing" +:+ dq
      +:+ "], "
      +:+ dq +:+ "definition" +:+ dq +:+ ": " +:+ dq +:+ "changed" +:+ dq +:+ "}".

Definition wide_response : json :=
  JObj [ ("target_persona", JArr [JStr "founder"]);
         ("startup_phase", JArr [JStr "seed"]);
         ("problem_category", JArr [JStr "pricing"]);
         ("definition", JStr "changed") ].

Definition bad_answer : string :=
  "{" +:+ dq +:+ "target_persona" +:+ dq +:+ ": [" +:+ dq +:+ "astronaut" +:+ dq
      +:+ "]}".

Definition bad_response : json :=
  JObj [ ("target_persona", JArr [JStr "astronaut"]) ].

Definition sample_loads (s : string) : option json :=
  if String.eqb s "{}" then Some (JObj [])
  else if String.eqb s empty_answer then Some empty_response
  else if String.eqb s wide_answer then Some wide_response
  else if String.eqb s bad_answer then Some bad_response
  else None.

#[local] Instance runtime : PyRuntime :=
  {| float_repr := fun _ => "0.0"; json_loads := sample_loads |}.

(** A set that is iterated in the order in which its members came in, and
    one that is iterated in the opposite order. *)
Definition insertion_order : Hashing :=
  {| set_order := fun l => l;
     set_order_perm := fun l => Permutation_refl l |}.

Definition reverse_order : Hashing :=
  {| set_order := fun l => List.rev l;
     set_order_perm := fun l => Permutation_sym (Permutation_rev l) |}.

(** A host whose folder lists [names] and whose tool always prints
    [text]. *)
Definition host (names : list string) (text : string) : Enrich.Host :=
  {| Enrich.hashing := insertion_order;
     Enrich.dir_exists := fun _ => true;
     Enrich.listdir := fun _ => names;
     Enrich.claude := fun _ _ => Enrich.Stdout text;
     Enrich.time_time := fun n => FFin false (N.of_nat n) 0 |}.

Definition plain_record : json := JObj [("definition", JStr "original")].

Definition complete_record : json :=
  JObj [ ("definition", JStr "original");
         ("target_persona", JArr [JStr "founder"]);
         ("startup_phase", JArr []);
         ("problem_category", JArr [JStr "pricing"]) ].

Definition a_json : Enrich.path := Enrich.Path "in" "a.json".

(** The prompt built for [plain_record]. *)
Definition plain_prompt : string :=
  match Enrich.create_claude_prompt plain_record with
  | Ok prompt => prompt
  | Raise _ => ""
  end.

(** A progress log that lists [a.json]; a folder with [a.json] and
    [b.json], both complete. *)
Definition log_with_a : json :=
  JObj [ ("processed_files", JArr [JStr "a.json"]);
         ("last_updated", JFloat (FFin false 7 0));
         ("total_processed", JInt 1) ].

Definition two_files : gmap string file :=
  {[ "log.json" := Doc log_with_a;
     "in/a.json" := Doc complete_record;
     "in/b.json" := Doc complete_record ]}.

(** A progress log that lists [a.json] and, after it, an entry that
    cannot be a member of a set. *)
Definition log_with_a_and_list : json :=
  JObj [ ("processed_files", JArr [JStr "a.json"; JArr []]);
         ("last_updated", JFloat (FFin false 7 0));
         ("total_processed", JInt 2) ].

Definition one_file_odd_log : gmap string file :=
  {[ "log.json" := Doc log_with_a_and_list;
     "in/a.json" := Doc plain_record ]}.


(** A folder with the one file [a.json], holding [plain_record], before
    the enricher has done anything. *)
Definition one_plain_file : Enrich.state :=
  Enrich.blank "in" "log.json" {["in/a.json" := Doc plain_record]}.

End Sample.

(* ===================================================================== *)
(** * Part II: properties *)
(* ===================================================================== *)

Module PyFacts.
Import Py ExplodeSpec.

Lemma sapp_cons (a : ascii) (s t : string) : String a s +:+ t = String a (s +:+ t).
Proof. reflexivity. Qed.

Lemma sapp_nil_r (s : string) : s +:+ "" = s.
Proof. induction s as [|a s IH]; [reflexivity | by rewrite sapp_cons, IH]. Qed.

Lemma sapp_assoc (s t u : string) : (s +:+ t) +:+ u = s +:+ t +:+ u.
Proof. induction s as [|a s IH]; [reflexivity | by rewrite !sapp_cons, IH]. Qed.

Lemma sapp_length (s t : string) :
  String.length (s +:+ t) = (String.length s + String.length t)%nat.
Proof.
  induction s as [|a s IH]; [reflexivity | rewrite sapp_cons; simpl; by rewrite IH].
Qed.

Lemma sapp_inv_head (s t u : string) : s +:+ t = s +:+ u -> t = u.
Proof.
  induction s as [|a s IH]; [done | rewrite !sapp_cons; intros [= H]; auto].
Qed.

Lemma sapp_inv_tail (s t u : string) : s +:+ u = t +:+ u -> s = t.
Proof.
  revert t. induction s as [|a s IH]; intros [|b t] H.
  - reflexivity.
  - apply (f_equal String.length) in H. rewrite !sapp_length in H.
    simpl in H. lia.
  - apply (f_equal String.length) in H. rewrite !sapp_length in H.
    simpl in H. lia.
  - rewrite !sapp_cons in H. injection H as -> H. f_equal. by apply IH.
Qed.

Lemma existsb_eqb_In (p : string) (ps : list string) :
  existsb (String.eqb p) ps = true <-> In p ps.
Proof.
  rewrite existsb_exists. split.
  - intros (x & Hx & He). apply String.eqb_eq in He. by subst.
  - intros H. exists p. split; [done | apply String.eqb_refl].
Qed.

Lemma existsb_eqb_not_In (p : string) (ps : list string) :
  existsb (String.eqb p) ps = false <-> ~ In p ps.
Proof.
  rewrite <- existsb_eqb_In. destruct (existsb _ ps); split; congruence.
Qed.

Lemma path_join_prefix (a b : string) :
  starts_with_slash b = false -> path_join a b = join_prefix a +:+ b.
Proof.
  intros Hb. unfold path_join, join_prefix.
  assert (Hgo : match String.rev a with
                | "" => b
                | String "/"%char _ => a +:+ b
                | String _ _ => a +:+ "/" +:+ b
                end = match String.rev a with
                      | "" => ""
                      | String "/"%char _ => a
                      | String _ _ => a +:+ "/"
                      end +:+ b).
  { destruct (String.rev a) as [|r ra]; [reflexivity|].
    destruct r as [[] [] [] [] [] [] [] []];
      first [reflexivity | by rewrite sapp_assoc]. }
  destruct b as [|c b]; [exact Hgo|].
  destruct c as [[] [] [] [] [] [] [] []]; first [exact Hgo | done].
Qed.

End PyFacts.

Module ExplodeProps.
Import Py Explode ExplodeSpec PyFacts.

Lemma written_app (l1 l2 : list event) :
  written (l1 ++ l2) = written l1 ++ written l2.
Proof.
  induction l1 as [|ev l1 IH]; [reflexivity|].
  destruct ev; simpl; by rewrite IH.
Qed.

Lemma foldl_put_notin (ws : list (string * json)) (fs : gmap string file) p :
  p ∉ ws.*1 -> foldl put fs ws !! p = fs !! p.
Proof.
  revert fs. induction ws as [|[q o] ws IH]; intros fs Hp; [reflexivity|].
  simpl in *. apply not_elem_of_cons in Hp as [Hne Hp].
  rewrite IH by done. unfold put. simpl. by rewrite lookup_insert_ne.
Qed.

(** Reading back the written paths yields the last object written to each. *)
Lemma collect_last_writes (ws : list (string * json)) (fs : gmap string file) :
  omap (doc_at (foldl put fs ws)) (dedup_paths (ws.*1)) = last_writes ws.
Proof.
  revert fs. induction ws as [|[p o] ws IH]; intros fs; [reflexivity|].
  rewrite fmap_cons. cbn [foldl dedup_paths last_writes fst].
  destruct (existsb (String.eqb p) (ws.*1)) eqn:E.
  - apply IH.
  - cbn [omap list_omap]. unfold doc_at at 1.
    rewrite foldl_put_notin.
    + unfold put at 1. cbn [fst snd]. rewrite lookup_insert_eq. by rewrite IH.
    + rewrite list_elem_of_In. by apply existsb_eqb_not_In.
Qed.

Lemma last_writes_NoDup (ws : list (string * json)) :
  NoDup (ws.*1) -> last_writes ws = ws.*2.
Proof.
  induction ws as [|[p o] ws IH]; [reflexivity|].
  rewrite !fmap_cons. cbn [last_writes fst snd]. intros [Hp Hnd]%NoDup_cons.
  rewrite list_elem_of_In in Hp. apply existsb_eqb_not_In in Hp.
  rewrite Hp. by rewrite IH.
Qed.

Lemma starts_with_slash_cons (a : ascii) (s : string) :
  starts_with_slash (String a s) = Ascii.eqb a "/".
Proof. destruct a as [[] [] [] [] [] [] [] []]; reflexivity. Qed.

(** The character class of the pattern is the spec's list of codes. *)
Lemma unsafe_char_code (c : ascii) : unsafe_char c = unsafe_code (code c).
Proof. destruct c as [[] [] [] [] [] [] [] []]; reflexivity. Qed.

(** The substitution against the spec's wording. After an unsafe
    character the code is inside a run and writes nothing for the
    characters that continue it. *)
Lemma sanitize_from_runs (s : string) :
  sanitize_from false s = replace_runs s /\
  match marked s with
  | None :: _ => replace_runs s = String "_" (sanitize_from true s)
  | _ => sanitize_from true s = replace_runs s
  end.
Proof.
  unfold replace_runs. induction s as [|c s [IHa IHb]]; [done|].
  cbn [sanitize_from marked]. rewrite unsafe_char_code.
  destruct (unsafe_code (code c)).
  - assert (Hrun : fill_runs (None :: marked s)
                   = String "_" (sanitize_from true s)).
    { cbn [fill_runs]. destruct (marked s) as [|[a|] rest] eqn:Hm.
      - by rewrite IHb.
      - by rewrite IHb.
      - exact IHb. }
    by rewrite Hrun.
  - cbn [fill_runs]. by rewrite IHa.
Qed.

Lemma sanitize_replace_runs (s : string) : sanitize s = replace_runs s.
Proof. apply sanitize_from_runs. Qed.

(** A sanitised name never begins with a slash. *)
Lemma sanitize_from_no_slash (in_run : bool) (s t : string) :
  starts_with_slash t = false ->
  starts_with_slash (sanitize_from in_run s +:+ t) = false.
Proof.
  intros Ht. revert in_run. induction s as [|a s IH]; intros in_run; [done|].
  cbn [sanitize_from]. destruct (unsafe_char a) eqn:U.
  - destruct in_run; [apply IH | reflexivity].
  - rewrite sapp_cons, starts_with_slash_cons.
    destruct (Ascii.eqb_spec a "/") as [->|]; [discriminate U | reflexivity].
Qed.

Lemma replace_runs_no_slash (s : string) :
  starts_with_slash (replace_runs s +:+ ".json") = false.
Proof. rewrite <- sanitize_replace_runs. by apply sanitize_from_no_slash. Qed.

Lemma out_path_file_of `{!PyRuntime} (output_dir : string) (v : json) :
  out_path_of output_dir v = file_of output_dir v.
Proof. unfold out_path_of, file_of. by rewrite sanitize_replace_runs. Qed.

Lemma file_of_prefix `{!PyRuntime} (output_dir : string) (v : json) :
  file_of output_dir v =
    join_prefix output_dir +:+ replace_runs (py_str v) +:+ ".json".
Proof. apply path_join_prefix, replace_runs_no_slash. Qed.

Section Loop.
Context `{!PyRuntime} `{!Disk}.
Variables (field output_dir : string).

(** One pass of the loop body: skip, come to write, or raise before. *)
Lemma explode_obj_cases (obj : json) (st : state) :
  (target field output_dir obj = None /\ py_contains field obj = Ok false /\
   explode_obj field output_dir obj st =
     Ok (emit (Printed ("Skipping object without field " +:+ field)) st))
  \/ (exists p, target field output_dir obj = Some p /\
        explode_obj field output_dir obj st = dump p obj st)
  \/ (target field output_dir obj = None /\
      exists e, explode_obj field output_dir obj st = Raise e).
Proof.
  unfold explode_obj, target.
  destruct (py_contains field obj) as [[]|e]; simpl.
  - destruct (py_getitem obj field) as [v|e]; simpl.
    + right. left. rewrite out_path_file_of. eauto.
    + right. right. eauto.
  - left. eauto.
  - right. right. eauto.
Qed.

Lemma dump_cases (p : string) (obj : json) (st : state) :
  (open_w (length (events st)) p = None /\ dump p obj st = Ok (store p obj st))
  \/ (exists e, open_w (length (events st)) p = Some e /\
        dump p obj st = Raise e).
Proof. unfold dump. destruct (open_w _ p) as [e|]; eauto. Qed.

Lemma loop_app (pre post : list json) (st : state) :
  explode_loop field output_dir (pre ++ post) st =
  match explode_loop field output_dir pre st with
  | (st', None) => explode_loop field output_dir post st'
  | r => r
  end.
Proof.
  revert st. induction pre as [|obj pre IH]; intros st; [reflexivity|].
  simpl. destruct (explode_obj field output_dir obj st); [apply IH | reflexivity].
Qed.

(** What the loop does, finished or not: it adds events, and a file
    changes only by the write of an element. *)
Lemma loop_frame (data : list json) (st st' : state) (err : option exn) :
  explode_loop field output_dir data st = (st', err) ->
  exists new,
    events st' = events st ++ new /\
    forall p, files st' !! p = files st !! p \/
              exists obj, In obj data /\ In (Wrote p obj) new.
Proof.
  revert st. induction data as [|obj data IH]; intros st; simpl.
  - intros [= <- _]. exists []. rewrite app_nil_r. split; [done|]. by left.
  - destruct (explode_obj_cases obj st)
      as [(_ & _ & ->)|[(q & _ & ->)|(_ & e & ->)]].
    + intros (new & -> & Hfiles)%IH. simpl. eexists.
      split; [by rewrite <- app_assoc|].
      intros p. destruct (Hfiles p) as [Hp|(o & Ho & Hw)]; [by left|].
      right. exists o. split; [by right | by right].
    + destruct (dump_cases q obj st) as [(_ & ->)|(e & _ & ->)].
      * intros (new & -> & Hfiles)%IH. simpl. eexists.
        split; [by rewrite <- app_assoc|].
        intros p. destruct (Hfiles p) as [Hp|(o & Ho & Hw)].
        -- simpl in Hp. destruct (decide (q = p)) as [->|Hne].
           ++ right. exists obj. split; [by left | by left].
           ++ left. by rewrite Hp, lookup_insert_ne.
        -- right. exists o. split; [by right | by right].
      * intros [= <- _]. exists []. rewrite app_nil_r. split; [done|]. by left.
    + intros [= <- _]. exists []. rewrite app_nil_r. split; [done|]. by left.
Qed.

(** A run that finishes has done exactly the writes of [writes]. *)
Lemma loop_finished (data : list json) (st st' : state) :
  explode_loop field output_dir data st = (st', None) ->
  files st' = foldl put (files st) (writes field output_dir data) /\
  written (events st') =
    written (events st) ++ (writes field output_dir data).*1.
Proof.
  revert st. induction data as [|obj data IH]; intros st; simpl.
  - intros [= <-]. by rewrite app_nil_r.
  - unfold writes. simpl.
    destruct (explode_obj_cases obj st)
      as [(Ht & _ & ->)|[(p & Ht & ->)|(_ & e & ->)]].
    + intros [Hf Hw]%IH. rewrite Ht. simpl in *.
      rewrite Hf, Hw, written_app. simpl. by rewrite app_nil_r.
    + destruct (dump_cases p obj st) as [(_ & ->)|(e & _ & ->)]; [|discriminate].
      intros [Hf Hw]%IH. rewrite Ht. simpl in *.
      rewrite Hf, Hw, written_app. simpl. by rewrite <- app_assoc.
    + discriminate.
Qed.

Lemma has_field_target (obj : json) :
  has_field field obj ->
  target field output_dir obj =
    Some (join_prefix output_dir +:+ safe_name field obj +:+ ".json").
Proof.
  intros (d & v & -> & Hv). unfold target, safe_name. simpl.
  unfold dict_has. rewrite Hv. f_equal. apply file_of_prefix.
Qed.

(** The body of the loop on an object that has the key field, when its
    file can be opened. *)
Lemma keyed_step (d : list (string * json)) (v : json) (st : state) :
  dict_lookup field d = Some v ->
  open_w (length (events st)) (file_of output_dir v) = None ->
  explode_obj field output_dir (JObj d) st =
    Ok (store (file_of output_dir v) (JObj d) st).
Proof.
  intros Hv Hopen. unfold explode_obj. simpl. unfold dict_has. rewrite Hv.
  simpl. rewrite out_path_file_of. unfold dump. by rewrite Hopen.
Qed.

Lemma has_field_step (obj : json) (st : state) :
  has_field field obj ->
  (forall p, target field output_dir obj = Some p ->
             open_w (length (events st)) p = None) ->
  explode_obj field output_dir obj st =
    Ok (store (join_prefix output_dir +:+ safe_name field obj +:+ ".json")
          obj st).
Proof.
  intros Hf Hopen. pose proof (has_field_target obj Hf) as Ht.
  specialize (Hopen _ Ht).
  destruct (explode_obj_cases obj st)
    as [(Hn & _)|[(p & Hp & ->)|(Hn & _)]]; try congruence.
  rewrite Ht in Hp. injection Hp as <-.
  unfold dump. by rewrite Hopen.
Qed.

(** On elements that all have the key field, and whose files can be
    opened, the loop never raises. *)
Lemma loop_total (data : list json) (st : state) :
  Forall (has_field field) data ->
  writable field output_dir data ->
  exists st', explode_loop field output_dir data st = (st', None).
Proof.
  intros Hall. revert st. induction Hall as [|obj data Hf _ IH]; intros st Hw.
  - by exists st.
  - cbn [explode_loop]. rewrite (has_field_step obj st Hf).
    + apply IH. intros n o p Ho. apply Hw. by right.
    + intros p Hp. apply (Hw _ obj); [by left | done].
Qed.

Lemma writes_all (data : list json) :
  Forall (has_field field) data ->
  writes field output_dir data =
    (fun obj => (join_prefix output_dir +:+ safe_name field obj +:+ ".json", obj))
      <$> data.
Proof.
  unfold writes. induction 1 as [|obj data Hf _ IH]; [reflexivity|].
  cbn [omap list_omap]. rewrite (has_field_target obj Hf). simpl.
  by rewrite IH.
Qed.

Lemma kept_all (data : list json) :
  Forall (has_field field) data ->
  NoDup (safe_name field <$> data) ->
  kept field output_dir data = data.
Proof.
  intros Hall Hnd. unfold kept. rewrite (writes_all data Hall).
  set (g := fun n : string => join_prefix output_dir +:+ n +:+ ".json").
  rewrite last_writes_NoDup.
  - rewrite <- list_fmap_compose. apply list_fmap_id.
  - match goal with
    | |- NoDup ?l => replace l with (g <$> (safe_name field <$> data))
    end.
    2: { rewrite <- !list_fmap_compose. reflexivity. }
    apply NoDup_fmap_2; [|done].
    intros n1 n2 Hg. unfold g in Hg.
    apply sapp_inv_head in Hg. by apply sapp_inv_tail in Hg.
Qed.

End Loop.

Lemma collect_emit_printed (line : string) (st : state) :
  collect (emit (Printed line) st) = collect st.
Proof.
  unfold collect, emit. simpl. rewrite written_app. simpl.
  by rewrite app_nil_r.
Qed.

(** The script on an input that holds an array, with enough arguments and
    an output directory that can be made. *)
Lemma main_on_array `{!PyRuntime} `{!Disk} (argv : list string)
    (fs : gmap string file) (data : list json) :
  (3 <= length argv)%nat ->
  makedirs (arg argv 2) = None ->
  load fs (arg argv 1) = Ok (JArr data) ->
  main argv fs =
    let st1 := emit (MadeDirs (arg argv 2)) {| files := fs; events := [] |} in
    match explode_loop (field_of argv) (arg argv 2) data st1 with
    | (st2, Some e) => (st2, Uncaught e)
    | (st2, None) =>
        (emit (Printed ("Exploded " +:+ int_str (Z.of_nat (length data))
                        +:+ " objects into " +:+ arg argv 2 +:+ "/")) st2,
         Finished)
    end.
Proof.
  intros Hlen Hdir Hin. unfold main. rewrite Hdir, Hin.
  destruct (Z.ltb_spec (Z.of_nat (length argv)) 3); [lia | reflexivity].
Qed.

(** A run finishes only when the output directory could be made. *)
Lemma finished_made_dirs `{!PyRuntime} `{!Disk} (argv : list string)
    (fs : gmap string file) (st : state) :
  main argv fs = (st, Finished) -> makedirs (arg argv 2) = None.
Proof.
  unfold main. destruct (_ <? 3); [discriminate|].
  destruct (makedirs (arg argv 2)); [discriminate | done].
Qed.

Lemma main_finished `{!PyRuntime} `{!Disk} (argv : list string)
    (fs : gmap string file) (data : list json) (st : state) :
  (3 <= length argv)%nat ->
  load fs (arg argv 1) = Ok (JArr data) ->
  main argv fs = (st, Finished) ->
  collect st = kept (field_of argv) (arg argv 2) data.
Proof.
  intros Hlen Hin Hmain.
  pose proof (finished_made_dirs argv fs st Hmain) as Hdir. revert Hmain.
  rewrite (main_on_array argv fs data Hlen Hdir Hin). cbn zeta.
  destruct (explode_loop _ _ data _) as [st2 [e|]] eqn:Hloop; [discriminate|].
  intros [= <-]. rewrite collect_emit_printed.
  apply loop_finished in Hloop as [Hfiles Hwritten].
  unfold collect, kept. rewrite Hfiles, Hwritten. simpl.
  apply collect_last_writes.
Qed.

(** C1 (amended). For an input file holding a JSON array, a run of the
    splitter that finishes leaves on disk exactly the elements that have
    the key field, and of several elements with one output path only the
    last.  When the output directory can be made, every element is an
    object with the key field, the names with their unsafe characters
    replaced are pairwise distinct, and the file of every element can be
    opened, the run finishes and the objects collected from the files it
    wrote are the elements of the array. *)
Theorem split_then_collect `{!PyRuntime} `{!Disk} (argv : list string)
    (fs : gmap string file) (data : list json) :
  (3 <= length argv)%nat ->
  load fs (arg argv 1) = Ok (JArr data) ->
  (forall st, main argv fs = (st, Finished) ->
     collect st = kept (field_of argv) (arg argv 2) data) /\
  (makedirs (arg argv 2) = None ->
   writable (field_of argv) (arg argv 2) data ->
   Forall (has_field (field_of argv)) data ->
   NoDup (safe_name (field_of argv) <$> data) ->
   exists st, main argv fs = (st, Finished) /\ collect st ≡ₚ data).
Proof.
  intros Hlen Hin. split.
  - intros st. by apply main_finished.
  - intros Hdir Hw Hall Hnd.
    destruct (loop_total (field_of argv) (arg argv 2) data
                (emit (MadeDirs (arg argv 2)) {| files := fs; events := [] |})
                Hall Hw) as [st2 Hloop].
    pose proof (main_on_array argv fs data Hlen Hdir Hin) as Hmain.
    cbn zeta in Hmain. rewrite Hloop in Hmain.
    eexists. split; [exact Hmain|].
    rewrite (main_finished argv fs data _ Hlen Hin Hmain).
    by rewrite kept_all.
Qed.

Lemma split_then_collect_witness :
  exists st,
    main (H := Sample.runtime) (H0 := plain_disk) sample_argv
      {["in.json" := Doc (JArr [one_record])]} = (st, Finished) /\
    collect st ≡ₚ [one_record].
Proof.
  refine (proj2 (split_then_collect (H := Sample.runtime) (H0 := plain_disk)
            sample_argv
            {["in.json" := Doc (JArr [one_record])]} [one_record] _ _) _ _ _ _).
  - simpl. lia.
  - reflexivity.
  - reflexivity.
  - intros n obj p [<-|[]] Hp. injection Hp as <-. reflexivity.
  - repeat constructor. exists [("knowledge_piece_name", JStr "Sunk Cost Fallacy")].
    by eexists.
  - repeat constructor. intros Hin. inversion Hin.
Defined.

(** C1 (as stated) fails: an element without the key field is skipped, so
    the files the run wrote do not hold it. *)
Lemma skipped_element_is_lost :
  exists st,
    main (H := Sample.runtime) (H0 := plain_disk) sample_argv
      {["in.json" := Doc (JArr [no_name_record])]} = (st, Finished) /\
    ~ collect st ≡ₚ [no_name_record].
Proof.
  eexists. split; [reflexivity|].
  intros Hp. apply Permutation_nil_cons in Hp. exact Hp.
Qed.

(** C10 (amended). An element whose key field is present is never
    skipped, whatever the type of the field's value [v]. When the loop
    comes to the element (the output directory was made and no element
    before it ended the run) and its file can be opened, the one thing the
    run does for the element is to write it to the file named by [str(v)]
    with the unsafe characters replaced: that file then holds the element,
    and at the end of the run it still does, unless a later element was
    written to the same file. For a number, a boolean or null, [str(v)]
    is its Python rendering (see the examples below). *)
Theorem keyed_element_is_written `{!PyRuntime} `{!Disk} (argv : list string)
    (fs : gmap string file) (pre post : list json)
    (d : list (string * json)) (v : json) (st_pre : state) :
  (3 <= length argv)%nat ->
  makedirs (arg argv 2) = None ->
  load fs (arg argv 1) = Ok (JArr (pre ++ JObj d :: post)) ->
  dict_lookup (field_of argv) d = Some v ->
  explode_loop (field_of argv) (arg argv 2) pre
    (emit (MadeDirs (arg argv 2)) {| files := fs; events := [] |})
    = (st_pre, None) ->
  let out_path :=
    path_join (arg argv 2) (replace_runs (py_str v) +:+ ".json") in
  open_w (length (events st_pre)) out_path = None ->
  exists st later,
    explode_loop (field_of argv) (arg argv 2) (pre ++ [JObj d])
      (emit (MadeDirs (arg argv 2)) {| files := fs; events := [] |})
      = (st, None) /\
    events st = events st_pre ++ [Wrote out_path (JObj d)] /\
    files st = <[out_path := Doc (JObj d)]> (files st_pre) /\
    events (main argv fs).1 = events st ++ later /\
    (files (main argv fs).1 !! out_path = Some (Doc (JObj d)) \/
     exists obj, In obj post /\ In (Wrote out_path obj) later).
Proof.
  intros Hlen Hdir Hin Hv Hpre out_path Hopen.
  pose proof (keyed_step (field_of argv) (arg argv 2) d v st_pre Hv Hopen)
    as Hstep.
  fold out_path in Hstep. unfold file_of in Hstep. fold out_path in Hstep.
  exists (store out_path (JObj d) st_pre).
  assert (Hmid : explode_loop (field_of argv) (arg argv 2) (pre ++ [JObj d])
            (emit (MadeDirs (arg argv 2)) {| files := fs; events := [] |})
          = (store out_path (JObj d) st_pre, None)).
  { rewrite loop_app, Hpre. cbn [explode_loop]. by rewrite Hstep. }
  assert (Hmain : exists later,
            events (main argv fs).1
              = events (store out_path (JObj d) st_pre) ++ later /\
            (files (main argv fs).1 !! out_path = Some (Doc (JObj d)) \/
             exists obj, In obj post /\ In (Wrote out_path obj) later)).
  { rewrite (main_on_array argv fs _ Hlen Hdir Hin). cbn zeta.
    replace (pre ++ JObj d :: post) with ((pre ++ [JObj d]) ++ post)
      by (by rewrite <- app_assoc).
    rewrite (loop_app _ _ (pre ++ [JObj d]) post), Hmid.
    destruct (explode_loop _ _ post _) as [st_end err] eqn:Hpost.
    apply loop_frame in Hpost as (new & Hnew & Hfiles).
    assert (Hlast : files st_end !! out_path = Some (Doc (JObj d)) \/
                    exists obj, In obj post /\ In (Wrote out_path obj) new).
    { destruct (Hfiles out_path) as [Hsame|Hlater]; [left | by right].
      rewrite Hsame. cbn [files store]. apply lookup_insert_eq. }
    destruct err as [e|]; cbn [fst].
    - by exists new.
    - eexists (new ++ [_]). split.
      + cbn [events emit]. rewrite Hnew, <- app_assoc. reflexivity.
      + destruct Hlast as [Hl|(obj & Ho & Hw)]; [by left | right].
        exists obj. split; [done|]. apply in_or_app. by left. }
  destruct Hmain as (later & Hev & Hlast).
  exists later. by repeat split.
Qed.

Lemma keyed_element_is_written_witness :
  exists st later,
    explode_loop (H := Sample.runtime) (H0 := plain_disk)
      "knowledge_piece_name" "out" ([] ++ [listed_record])
      {| files := {["in.json" := Doc (JArr [listed_record])]};
         events := [MadeDirs "out"] |} = (st, None) /\
    events st = [MadeDirs "out"]
                ++ [Wrote "out/['a_b_c', None].json" listed_record] /\
    files st = <["out/['a_b_c', None].json" := Doc listed_record]>
                 {["in.json" := Doc (JArr [listed_record])]} /\
    events (main (H := Sample.runtime) (H0 := plain_disk) sample_argv
              {["in.json" := Doc (JArr [listed_record])]}).1
      = events st ++ later /\
    (files (main (H := Sample.runtime) (H0 := plain_disk) sample_argv
              {["in.json" := Doc (JArr [listed_record])]}).1
       !! "out/['a_b_c', None].json" = Some (Doc listed_record) \/
     exists obj, In obj [] /\ In (Wrote "out/['a_b_c', None].json" obj) later).
Proof.
  refine (keyed_element_is_written (H := Sample.runtime) (H0 := plain_disk)
            sample_argv
            {["in.json" := Doc (JArr [listed_record])]} [] []
            [("knowledge_piece_name", JArr [JStr "a/b::c"; JNull])]
            (JArr [JStr "a/b::c"; JNull])
            {| files := {["in.json" := Doc (JArr [listed_record])]};
               events := [MadeDirs "out"] |} _ _ _ _ _ _).
  - simpl. lia.
  - reflexivity.
  - reflexivity.
  - reflexivity.
  - reflexivity.
  - reflexivity.
Defined.

(** C10 (as stated) fails for an element the loop does not come to: the
    number before it ends the run with a [TypeError], and the element,
    whose key field is present and is a number, is never written. *)
Lemma unreached_element_is_not_written :
  exists st,
    main (H := Sample.runtime) (H0 := plain_disk) sample_argv
      {["in.json" := Doc (JArr [JInt 3; numbered_record])]}
      = (st, Uncaught TypeError) /\
    dict_lookup "knowledge_piece_name" [("knowledge_piece_name", JInt 42)]
      = Some (JInt 42) /\
    events st = [MadeDirs "out"] /\
    files st = {["in.json" := Doc (JArr [JInt 3; numbered_record])]}.
Proof. eexists. repeat split. Qed.

Example str_of_number : py_str (H := Sample.runtime) (JInt 42) = "42".
Proof. reflexivity. Qed.

Example str_of_negative : py_str (H := Sample.runtime) (JInt (-7)) = "-7".
Proof. reflexivity. Qed.

Example str_of_boolean : py_str (H := Sample.runtime) (JBool true) = "True".
Proof. reflexivity. Qed.

Example str_of_null : py_str (H := Sample.runtime) JNull = "None".
Proof. reflexivity. Qed.

Example str_of_list :
  py_str (H := Sample.runtime) (JArr [JStr "a"; JInt 1; JNull]) = "['a', 1, None]".
Proof. reflexivity. Qed.

Example file_of_number :
  file_of (H := Sample.runtime) "out" (JInt 42) = "out/42.json".
Proof. reflexivity. Qed.

Example file_of_null :
  file_of (H := Sample.runtime) "out" JNull = "out/None.json".
Proof. reflexivity. Qed.

Example path_of_null :
  out_path_of (H := Sample.runtime) "out" JNull = "out/None.json".
Proof. reflexivity. Qed.

Example sanitize_runs : sanitize "a/b::c" = "a_b_c".
Proof. reflexivity. Qed.

Example sanitize_title : sanitize "Sunk Cost Fallacy" = "Sunk Cost Fallacy".
Proof. reflexivity. Qed.

(** A number as key value, written where the run is not cut short. *)
Example numbered_element_run :
  exists st,
    main (H := Sample.runtime) (H0 := plain_disk) sample_argv
      {["in.json" := Doc (JArr [numbered_record])]} = (st, Finished) /\
    files st !! "out/42.json" = Some (Doc numbered_record).
Proof. eexists. split; reflexivity. Qed.

(** Two elements with one name: the second write replaces the first. *)
Example colliding_names_last_wins :
  exists st,
    main (H := Sample.runtime) (H0 := plain_disk) sample_argv
      {["in.json" := Doc (JArr
          [ JObj [("knowledge_piece_name", JStr "a/b"); ("n", JInt 1)];
            JObj [("knowledge_piece_name", JStr "a:b"); ("n", JInt 2)] ])]}
      = (st, Finished) /\
    collect st = [JObj [("knowledge_piece_name", JStr "a:b"); ("n", JInt 2)]].
Proof. eexists. split; reflexivity. Qed.

(** An element that is not an object ends the run with an exception. *)
Example number_element_raises :
  (main (H := Sample.runtime) (H0 := plain_disk) sample_argv
     {["in.json" := Doc (JArr [JInt 3])]}).2 = Uncaught TypeError.
Proof. reflexivity. Qed.

(** An empty name for the output directory ends the run before the input
    is read, on every disk. *)
Example empty_output_dir_raises `{!PyRuntime} `{!Disk} (fs : gmap string file) :
  main ["explode_json.py"; "in.json"; ""] fs
    = ({| files := fs; events := [] |}, Uncaught OSError).
Proof. reflexivity. Qed.

(** A name with a NUL character cannot be opened, on every disk: the run
    ends with a [ValueError] and writes nothing. *)
Example nul_in_name_raises :
  main (H := Sample.runtime) (H0 := plain_disk) sample_argv
    {["in.json" := Doc (JArr
        [JObj [("knowledge_piece_name", JStr (String "000" "b"))]])]}
  = ({| files := {["in.json" := Doc (JArr
           [JObj [("knowledge_piece_name", JStr (String "000" "b"))]])]};
        events := [MadeDirs "out"] |},
     Uncaught ValueError).
Proof. reflexivity. Qed.

(** A file the operating system refuses to open ends the run. *)
Example full_disk_raises :
  (main (H := Sample.runtime) (H0 := full_disk) sample_argv
     {["in.json" := Doc (JArr [one_record])]}).2 = Uncaught OSError.
Proof. reflexivity. Qed.

End ExplodeProps.

Module SpanFacts.
Import Py Enrich EnrichSpec PyFacts.

Lemma rfind_ge (c : ascii) (s : string) : -1 <= str_rfind c s.
Proof.
  induction s as [|a s IH]; cbn [str_rfind]; [lia|].
  destruct (Z.leb_spec 0 (str_rfind c s)); [lia|].
  destruct (ascii_eqb a c); lia.
Qed.

Lemma find_ge (c : ascii) (s : string) : -1 <= str_find c s.
Proof.
  induction s as [|a s IH]; cbn [str_find]; [lia|].
  destruct (ascii_eqb a c); [lia|].
  destruct (Z.ltb_spec (str_find c s) 0); lia.
Qed.

Lemma substring_0_0 (s : string) : String.substring 0 0 s = "".
Proof. by destruct s. Qed.

(** [upto_last_close] is the prefix that [rfind] delimits. *)
Lemma upto_last_close_rfind (s : string) :
  upto_last_close s =
    if 0 <=? str_rfind "}" s
    then Some (String.substring 0 (Z.to_nat (str_rfind "}" s + 1)) s)
    else None.
Proof.
  induction s as [|a s IH]; [reflexivity|].
  cbn [upto_last_close str_rfind]. rewrite IH.
  pose proof (rfind_ge "}" s) as Hge.
  destruct (Z.leb_spec 0 (str_rfind "}" s)) as [Hr|Hr].
  - destruct (Z.leb_spec 0 (str_rfind "}" s + 1)); [|lia].
    replace (Z.to_nat (str_rfind "}" s + 1 + 1))
      with (S (Z.to_nat (str_rfind "}" s + 1))) by lia.
    reflexivity.
  - destruct (ascii_eqb a "}"); [|reflexivity].
    simpl. by rewrite substring_0_0.
Qed.

Lemma payload_brace_span (t : string) : payload t = brace_span t.
Proof.
  unfold brace_span. induction t as [|a t IH]; [reflexivity|].
  unfold payload in *. cbn [from_first_open str_find].
  destruct (ascii_eqb a "{") eqn:Ea.
  - cbn [mbind option_bind]. rewrite upto_last_close_rfind.
    pose proof (rfind_ge "}" (String a t)) as Hge.
    unfold str_slice. rewrite Z.sub_0_r. simpl (Z.to_nat 0).
    destruct (Z.leb_spec 0 (str_rfind "}" (String a t)));
      destruct (Z.ltb_spec 0 (str_rfind "}" (String a t) + 1));
      simpl; first [reflexivity | lia].
  - rewrite <- IH. clear IH. cbn [str_rfind].
    pose proof (find_ge "{" t) as Hf. pose proof (rfind_ge "}" t) as Hr.
    destruct (Z.ltb_spec (str_find "{" t) 0) as [Hneg|Hpos].
    + destruct (Z.leb_spec 0 (str_find "{" t)); [lia|]. reflexivity.
    + destruct (Z.leb_spec 0 (str_find "{" t)); [|lia].
      destruct (Z.leb_spec 0 (str_find "{" t + 1)); [|lia].
      destruct (Z.leb_spec 0 (str_rfind "}" t)) as [Hr0|Hr0].
      * destruct (Z.ltb_spec (str_find "{" t) (str_rfind "}" t + 1));
          destruct (Z.ltb_spec (str_find "{" t + 1) (str_rfind "}" t + 1 + 1));
          simpl; try lia; [|reflexivity].
        unfold str_slice.
        replace (Z.to_nat (str_find "{" t + 1)) with (S (Z.to_nat (str_find "{" t)))
          by lia.
        replace (str_rfind "}" t + 1 + 1 - (str_find "{" t + 1))
          with (str_rfind "}" t + 1 - str_find "{" t) by lia.
        reflexivity.
      * destruct (Z.ltb_spec (str_find "{" t) (str_rfind "}" t + 1)); [lia|].
        destruct (ascii_eqb a "}");
          match goal with
          | |- context [?x <? ?y] => destruct (Z.ltb_spec x y); [lia|]
          end; reflexivity.
Qed.

Lemma space_not_open (a : ascii) : is_space a = true -> ascii_eqb a "{" = false.
Proof.
  intros Hs. destruct (ascii_eqb a "{") eqn:E; [|reflexivity].
  apply Ascii.eqb_eq in E. subst a. discriminate Hs.
Qed.

Lemma space_not_close (a : ascii) : is_space a = true -> ascii_eqb a "}" = false.
Proof.
  intros Hs. destruct (ascii_eqb a "}") eqn:E; [|reflexivity].
  apply Ascii.eqb_eq in E. subst a. discriminate Hs.
Qed.

Lemma from_first_open_lstrip (s : string) :
  from_first_open (lstrip s) = from_first_open s.
Proof.
  induction s as [|a s IH]; [reflexivity|].
  cbn [lstrip]. destruct (is_space a) eqn:Hs; [|reflexivity].
  cbn [from_first_open]. by rewrite (space_not_open a Hs).
Qed.

Lemma from_first_open_rstrip (s : string) :
  from_first_open (rstrip s) = rstrip <$> from_first_open s.
Proof.
  induction s as [|a s IH]; [reflexivity|].
  cbn [from_first_open].
  destruct (ascii_eqb a "{") eqn:Ea.
  - change (rstrip <$> Some (String a s)) with (Some (rstrip (String a s))).
    cbn [rstrip]. destruct (rstrip s) as [|b r].
    + destruct (is_space a) eqn:Hs.
      * pose proof (space_not_open a Hs). congruence.
      * cbn [from_first_open]. by rewrite Ea.
    + cbn [from_first_open]. by rewrite Ea.
  - rewrite <- IH. cbn [rstrip]. destruct (rstrip s) as [|b r].
    + destruct (is_space a); [reflexivity|].
      cbn [from_first_open]. by rewrite Ea.
    + cbn [from_first_open]. by rewrite Ea.
Qed.

Lemma upto_last_close_rstrip (s : string) :
  upto_last_close (rstrip s) = upto_last_close s.
Proof.
  induction s as [|a s IH]; [reflexivity|].
  cbn [upto_last_close]. rewrite <- IH. cbn [rstrip].
  destruct (rstrip s) as [|b r] eqn:Er.
  - cbn [upto_last_close]. destruct (is_space a) eqn:Hs.
    + by rewrite (space_not_close a Hs).
    + reflexivity.
  - reflexivity.
Qed.

(** Stripping white space does not move the braces. *)
Lemma brace_span_strip (s : string) : brace_span (strip s) = brace_span s.
Proof.
  unfold brace_span, strip.
  rewrite from_first_open_rstrip, from_first_open_lstrip.
  destruct (from_first_open s) as [u|]; [|reflexivity].
  simpl. apply upto_last_close_rstrip.
Qed.

End SpanFacts.

Module EnrichFacts.
Import Py Enrich EnrichSpec PyFacts SpanFacts.

Ltac run1 :=
  try unfold mbind; try unfold mret; try unfold io_bind; try unfold io_ret;
  try unfold result_bind; try unfold result_ret; try unfold get;
  try unfold logger; try unfold emit; try unfold modify; try unfold lift;
  try unfold try_except; try unfold read_json; try unfold write_json;
  cbn [input_folder progress_log_file processed_files files trace
       with_trace with_files with_processed fst snd negb].

Ltac run := repeat (progress run1).

Ltac exists_rest :=
  eexists; eexists; (split; [eassumption|]); (split; [reflexivity|]); done.

Section Runs.
Context `{!PyRuntime} `{!Host}.

Lemma answer_of_stdout (text : string) :
  answer_of (Stdout text) =
    if (0 <=? str_find "{" (strip text)) &&
       (str_find "{" (strip text) <? str_rfind "}" (strip text) + 1)
    then json_loads (str_slice (strip text) (str_find "{" (strip text))
                       (str_rfind "}" (strip text) + 1))
    else None.
Proof.
  unfold answer_of. rewrite <- brace_span_strip, <- payload_brace_span.
  unfold payload. by destruct (_ && _).
Qed.

Lemma call_claude_code_run (prompt : string) (st : state) :
  exists logs,
    Forall is_note logs /\
    call_claude_code prompt st =
      (Ok (answer_of (claude (calls_so_far (trace st)) prompt)),
       with_trace (trace st ++ Ran prompt :: logs) st) /\
    (answer_of (claude (calls_so_far (trace st)) prompt) <> None -> logs = []).
Proof.
  unfold call_claude_code. destruct st as [folder log proc fs tr].
  run.
  destruct (claude (calls_so_far tr) prompt) as [text| |code err|] eqn:Hc;
    [rewrite answer_of_stdout; destruct (_ && _); [destruct (json_loads _)|]| | |];
    run; eexists;
    (split; [|split; [rewrite <- ?app_assoc; reflexivity|]]);
    first [done | repeat constructor].
Qed.

Lemma existsb_false {A : Type} (l : list A) : existsb (fun _ => false) l = false.
Proof. induction l; [reflexivity | assumption]. Qed.

Lemma in_valid_set_spec (value : json) (valid_set : list string) :
  in_valid_set value valid_set =
    if hashable value then Ok (value_ok valid_set value) else Raise TypeError.
Proof.
  unfold in_valid_set. destruct value; simpl; try reflexivity;
    try (by rewrite existsb_false).
Qed.

Lemma with_trace_nil (st : state) : with_trace (trace st ++ []) st = st.
Proof. destruct st. unfold with_trace. simpl. by rewrite app_nil_r. Qed.

Lemma with_trace_twice (l1 l2 : list event) (st : state) :
  with_trace (trace (with_trace (trace st ++ l1) st) ++ l2)
    (with_trace (trace st ++ l1) st)
  = with_trace (trace st ++ l1 ++ l2) st.
Proof. destruct st. unfold with_trace. simpl. by rewrite app_assoc. Qed.

(** The inner loop of the validator against [value_ok]. *)
Lemma check_values_run (field : string) (valid_set : list string)
    (values : list json) (st : state) :
  exists r logs,
    Forall is_note logs /\
    check_values field valid_set values st = (r, with_trace (trace st ++ logs) st) /\
    (if forallb (value_ok valid_set) values
     then r = Ok true /\ logs = [] else r <> Ok true).
Proof.
  induction values as [|value rest IH].
  - exists (Ok true), []. rewrite with_trace_nil. by repeat split.
  - cbn [check_values forallb]. run. rewrite in_valid_set_spec.
    destruct (hashable value) eqn:Hh.
    + destruct (value_ok valid_set value) eqn:Hv; cbn [negb andb].
      * exact IH.
      * exists (Ok false). eexists. split; [|split; [reflexivity|done]].
        repeat constructor.
    + exists (Raise TypeError), []. rewrite with_trace_nil.
      split; [constructor|]. split; [reflexivity|].
      destruct value; try discriminate Hh; done.
Qed.

(** The validator against [field_ok]. *)
Lemma check_fields_run (response : json) (fields : list string) (st : state) :
  exists r logs,
    Forall is_note logs /\
    check_fields response fields st = (r, with_trace (trace st ++ logs) st) /\
    (if forallb (field_ok response) fields
     then r = Ok true /\ logs = [] else r <> Ok true).
Proof.
  induction fields as [|field rest IH].
  - exists (Ok true), []. rewrite with_trace_nil. by repeat split.
  - cbn [check_fields forallb]. run.
    assert (Hraise : forall e : exn, exists (r : result bool) logs,
      Forall is_note logs /\
      (Raise e, st) = (r, with_trace (trace st ++ logs) st) /\ r <> Ok true).
    { intros e. exists (Raise e), []. rewrite with_trace_nil.
      by repeat split; try constructor. }
    assert (Hfalse : forall msg, String.prefix "Proc" msg = false ->
      exists (r : result bool) logs,
      Forall is_note logs /\
      (Ok false, with_trace (trace st ++ [Logged ERROR msg]) st)
        = (r, with_trace (trace st ++ logs) st) /\ r <> Ok true).
    { intros msg Hmsg. exists (Ok false), [Logged ERROR msg].
      by repeat split; try constructor. }
    destruct response as [|b|n|f|s|xs|d]; cbn [py_contains field_ok andb];
      try apply Hraise.
    + destruct (str_contains field s); cbn [negb py_getitem];
        [apply Hraise | by apply Hfalse].
    + destruct (existsb (is_str field) xs); cbn [negb py_getitem];
        [apply Hraise | by apply Hfalse].
    + unfold dict_has. cbn [py_getitem].
      destruct (dict_lookup field d) as [v|]; cbn [negb];
        [|by apply Hfalse].
      destruct v as [|b|n|f|s|values|d']; try (by apply Hfalse).
      destruct (check_values_run field (valid_values field) values st)
        as (r & logs & Hlogs & -> & Hr).
      destruct (forallb (value_ok (valid_values field)) values); cbn [andb].
      * destruct Hr as [-> ->]. rewrite with_trace_nil. exact IH.
      * destruct r as [[]|e]; [done| |]; exists_rest.
Qed.

Lemma calls_so_far_app (l1 l2 : list event) :
  calls_so_far (l1 ++ l2) = (calls_so_far l1 + calls_so_far l2)%nat.
Proof. unfold calls_so_far. by rewrite List.filter_app, length_app. Qed.

Lemma calls_so_far_notes (logs : list event) :
  Forall is_note logs -> calls_so_far logs = 0%nat.
Proof.
  induction 1 as [|ev logs Hev _ IH]; [reflexivity|].
  destruct ev; done.
Qed.

Lemma conforms_lookup (r : list (string * json)) (field : string) :
  conforms (JObj r) = true -> In field expected_fields ->
  exists values, dict_lookup field r = Some (JArr values) /\
    forallb (value_ok (valid_values field)) values = true.
Proof.
  unfold conforms. rewrite forallb_forall. intros Hall Hin.
  specialize (Hall field Hin). unfold field_ok in Hall.
  destruct (dict_lookup field r) as [[| | | | |values|]|]; try discriminate.
  by exists values.
Qed.

Lemma conforms_is_dict (response : json) :
  conforms response = true -> exists r, response = JObj r.
Proof.
  destruct response; try discriminate. by eexists.
Qed.

Lemma prompt_needs_dict (content : json) (prompt : string) :
  create_claude_prompt content = Ok prompt -> exists d, content = JObj d.
Proof.
  destruct content; try discriminate. by eexists.
Qed.

End Runs.
End EnrichFacts.

Module EnrichFileFacts.
Import Py Enrich EnrichSpec PyFacts SpanFacts EnrichFacts.

Section File.
Context `{!PyRuntime} `{!Host}.

Lemma enrich_file_run (f : path) (st : state) :
  exists b fs' rest,
    enrich_file f st =
      (Ok b, with_trace (trace st ++ processing (name f) :: Opened (path_str f) :: rest)
               (with_files fs' st)) /\
    ((fs' = files st /\
      (exists logs, Forall is_note logs /\
         (rest = logs \/ exists prompt, rest = Ran prompt :: logs)) /\
      (b = true ->
         exists content, json_load (files st) (path_str f) = Ok content /\
           all_in content expected_fields = Ok true /\ Forall is_note rest))
     \/
     (b = true /\
      exists d r prompt logs,
        json_load (files st) (path_str f) = Ok (JObj d) /\
        all_in (JObj d) expected_fields = Ok false /\
        create_claude_prompt (JObj d) = Ok prompt /\
        answer_of (claude (calls_so_far (trace st)) prompt) = Some (JObj r) /\
        conforms (JObj r) = true /\
        fs' = <[path_str f := Doc (JObj (dict_update d r))]> (files st) /\
        rest = Ran prompt
               :: Dumped (path_str f) (JObj (dict_update d r)) false :: logs /\
        Forall is_note logs)).
Proof.
  unfold enrich_file. destruct st as [folder log proc fs tr]. run.
  destruct (json_load fs (path_str f)) as [content|e] eqn:Hload; run.
  2: { eexists false, _, _. split; [rewrite <- !app_assoc; reflexivity|].
       left. split; [reflexivity|]. split; [|discriminate].
       eexists. split; [|left; reflexivity]. by repeat constructor. }
  destruct (all_in content expected_fields) as [[]|e] eqn:Hall; run.
  - (* the record is complete already *)
    eexists true, _, _. split; [rewrite <- !app_assoc; reflexivity|].
    left. split; [reflexivity|]. split.
    + eexists. split; [|left; reflexivity]. by repeat constructor.
    + intros _. exists content. split; [done|]. split; [done|].
      by repeat constructor.
  - destruct (create_claude_prompt content) as [prompt|e] eqn:Hprompt; run.
    2: { eexists false, _, _. split; [rewrite <- !app_assoc; reflexivity|].
         left. split; [reflexivity|]. split; [|discriminate].
         eexists. split; [|left; reflexivity]. by repeat constructor. }
    match goal with
    | |- context [call_claude_code ?p ?s] =>
        destruct (call_claude_code_run p s) as (logs & Hlogs & -> & Hquiet)
    end.
    run. cbn [trace with_trace] in Hquiet.
    assert (Hn : calls_so_far
                   ((tr ++ [Logged INFO ("Processing file: " +:+ name f)])
                    ++ [Opened (path_str f)]) = calls_so_far tr).
    { rewrite !calls_so_far_app. unfold calls_so_far. simpl. lia. }
    rewrite Hn in *. clear Hn.
    destruct (answer_of (claude (calls_so_far tr) prompt))
      as [response|] eqn:Hanswer; run.
    2: { eexists false, _, _. split; [rewrite <- !app_assoc; reflexivity|].
         left. split; [reflexivity|]. split; [|discriminate].
         eexists. split; [|right; eexists; reflexivity].
         apply Forall_app. split; [done | by repeat constructor]. }
    unfold validate_claude_response.
    match goal with
    | |- context [check_fields ?r ?fl ?s] =>
        destruct (check_fields_run r fl s) as (res & vlogs & Hvlogs & -> & Hres)
    end.
    run. fold (conforms response) in Hres.
    destruct (conforms response) eqn:Hconf.
    + (* a valid response: merge and write *)
      destruct Hres as [-> ->]. run.
      rewrite Hquiet by congruence. clear Hquiet Hlogs logs.
      destruct (prompt_needs_dict content prompt Hprompt) as [d ->].
      destruct (conforms_is_dict response Hconf) as [r ->].
      destruct (conforms_lookup r "target_persona" Hconf) as (tp & Htp & _);
        [simpl; tauto|].
      destruct (conforms_lookup r "startup_phase" Hconf) as (sp & Hsp & _);
        [simpl; tauto|].
      destruct (conforms_lookup r "problem_category" Hconf) as (pc & Hpc & _);
        [simpl; tauto|].
      cbn [py_update py_getitem]. run. rewrite Htp, Hsp, Hpc. run.
      eexists true, _, _. split; [rewrite <- !app_assoc; reflexivity|].
      right. split; [reflexivity|].
      exists d, r, prompt. eexists. repeat split; try done.
      by repeat constructor.
    + (* an invalid response *)
      destruct res as [[]|e]; [done| |]; run.
      * eexists false, _, _. split; [rewrite <- !app_assoc; reflexivity|].
        left. split; [reflexivity|]. split; [|discriminate].
        eexists. split; [|right; eexists; reflexivity].
        apply Forall_app. split; [done|].
        apply Forall_app. split; [done | by repeat constructor].
      * eexists false, _, _. split; [rewrite <- !app_assoc; reflexivity|].
        left. split; [reflexivity|]. split; [|discriminate].
        eexists. split; [|right; eexists; reflexivity].
        apply Forall_app. split; [done|].
        apply Forall_app. split; [done | by repeat constructor].
  - eexists false, _, _. split; [rewrite <- !app_assoc; reflexivity|].
    left. split; [reflexivity|]. split; [|discriminate].
    eexists. split; [|left; reflexivity]. by repeat constructor.
Qed.

End File.
End EnrichFileFacts.

Module DictFacts.
Import Py EnrichSpec.

Lemma dict_set_lookup (k k' : string) (v : json) (d : list (string * json)) :
  dict_lookup k (dict_set k' v d) =
    if String.eqb k' k then Some v else dict_lookup k d.
Proof.
  induction d as [|[k0 v0] d IH]; [reflexivity|].
  cbn [dict_set]. destruct (String.eqb_spec k0 k') as [->|Hne]; cbn [dict_lookup].
  - by destruct (String.eqb k' k).
  - rewrite IH. destruct (String.eqb_spec k0 k) as [->|]; [|reflexivity].
    destruct (String.eqb_spec k' k); [congruence | reflexivity].
Qed.

(** After [d.update(r)] a key has the value of its last occurrence in [r],
    or the value it had in [d]. *)
Lemma dict_update_lookup (k : string) (r d : list (string * json)) :
  dict_lookup k (dict_update d r) =
    match dict_last k r with
    | Some v => Some v
    | None => dict_lookup k d
    end.
Proof.
  revert d. induction r as [|[k' v'] r IH]; intros d; [reflexivity|].
  change (dict_update d ((k', v') :: r)) with (dict_update (dict_set k' v' d) r).
  rewrite IH, dict_set_lookup. cbn [dict_last].
  destruct (dict_last k r); [reflexivity|]. by destruct (String.eqb k' k).
Qed.

Lemma dict_last_None (k : string) (r : list (string * json)) :
  dict_last k r = None <-> dict_lookup k r = None.
Proof.
  induction r as [|[k' v'] r IH]; [done|].
  cbn [dict_last dict_lookup].
  destruct (String.eqb k' k); destruct (dict_last k r); split; try done.
  - by apply IH.
  - intros Hn. apply IH in Hn. done.
Qed.

(** In a dict, where a key occurs once, the last occurrence is the first. *)
Lemma dict_last_NoDup (k : string) (r : list (string * json)) :
  NoDup (r.*1) -> dict_last k r = dict_lookup k r.
Proof.
  induction r as [|[k' v'] r IH]; [done|].
  rewrite fmap_cons. intros [Hk Hnd]%NoDup_cons.
  cbn [dict_last dict_lookup fst]. rewrite (IH Hnd).
  destruct (String.eqb_spec k' k) as [->|]; [|by destruct (dict_lookup k r)].
  destruct (dict_lookup k r) eqn:Hl; [|reflexivity].
  exfalso. apply Hk. clear -Hl.
  induction r as [|[k0 v0] r IH]; [done|].
  cbn [dict_lookup] in Hl. rewrite fmap_cons.
  destruct (String.eqb_spec k0 k) as [->|]; [left | right; by apply IH].
Qed.

Lemma dict_has_update (k : string) (r d : list (string * json)) :
  dict_has k d = true -> dict_has k (dict_update d r) = true.
Proof.
  unfold dict_has. rewrite dict_update_lookup.
  by destruct (dict_last k r).
Qed.

End DictFacts.

Module EnrichProps.
Import Py Enrich EnrichSpec PyFacts SpanFacts EnrichFacts EnrichFileFacts DictFacts.

(** C2 (amended). Whatever the tool prints, the response parser takes the
    span from the first opening brace to the last closing brace of the
    output and hands that whole span to the JSON parser; the result is
    [None] when the call fails, when there is no such span, or when the
    span is not valid JSON. *)
Theorem response_parser_takes_brace_span `{!PyRuntime} `{!Host}
    (prompt : string) (st : state) :
  (call_claude_code prompt st).1 =
    Ok (match claude (calls_so_far (trace st)) prompt with
        | Stdout text => brace_span text ≫= json_loads
        | _ => None
        end).
Proof.
  destruct (call_claude_code_run prompt st) as (logs & _ & -> & _).
  reflexivity.
Qed.

(** C2 (as stated) fails: on an output with two objects the first balanced
    object is there and parses, yet the parser, which takes the text up to
    the last closing brace, returns [None]. *)
Lemma two_objects_are_rejected :
  first_balanced_object "{} {}" = Some "{}" /\
  json_loads (PyRuntime := Sample.runtime) "{}" = Some (JObj []) /\
  (call_claude_code (H := Sample.runtime) (H0 := Sample.host [] "{} {}")
     "prompt" (blank "in" "log.json" ∅)).1 = Ok None.
Proof. repeat split. Qed.

Lemma json_load_lookup (fs : gmap string file) (p : string) (v : json) :
  json_load fs p = Ok v <-> fs !! p = Some (Doc v).
Proof.
  unfold json_load. destruct (fs !! p) as [[|w]|]; split; congruence.
Qed.

(** C4. A record file that has all three target fields is left alone:
    the call succeeds, and all it does is to log, open the file for
    reading, and log again. The tool is not run and nothing is written. *)
Theorem complete_record_is_skipped `{!PyRuntime} `{!Host} (f : path)
    (st : state) (d : list (string * json)) :
  files st !! path_str f = Some (Doc (JObj d)) ->
  dict_has "target_persona" d = true ->
  dict_has "startup_phase" d = true ->
  dict_has "problem_category" d = true ->
  exists st',
    enrich_file f st = (Ok true, st') /\
    files st' = files st /\
    processed_files st' = processed_files st /\
    trace st' =
      trace st ++
      [ processing (name f);
        Opened (path_str f);
        Logged INFO ("File " +:+ name f
                     +:+ " already has required fields, skipping") ].
Proof.
  intros Hfile Htp Hsp Hpc. apply json_load_lookup in Hfile.
  unfold enrich_file. destruct st as [folder log proc fs tr].
  cbn [files] in Hfile. run. rewrite Hfile. run.
  cbn [all_in expected_fields py_contains]. rewrite Htp, Hsp, Hpc. run.
  eexists. split; [reflexivity|]. cbn [files processed_files trace].
  repeat split. by rewrite <- !app_assoc.
Qed.

Lemma complete_record_is_skipped_witness :
  exists st',
    enrich_file (H := Sample.runtime) (H0 := Sample.host ["a.json"] "{}")
      Sample.a_json
      (blank "in" "log.json" {["in/a.json" := Doc Sample.complete_record]})
      = (Ok true, st') /\
    files st' = {["in/a.json" := Doc Sample.complete_record]} /\
    processed_files st' = [] /\
    trace st' =
      [ processing "a.json";
        Opened "in/a.json";
        Logged INFO "File a.json already has required fields, skipping" ].
Proof.
  refine (complete_record_is_skipped (H := Sample.runtime)
            (H0 := Sample.host ["a.json"] "{}") Sample.a_json
            (blank "in" "log.json" {["in/a.json" := Doc Sample.complete_record]})
            _ _ _ _ _); reflexivity.
Defined.

Lemma violates_not_conforms (r : list (string * json)) :
  violates r -> conforms (JObj r) = false.
Proof.
  intros Hv. destruct (conforms (JObj r)) eqn:Hc; [exfalso | reflexivity].
  unfold conforms in Hc. rewrite forallb_forall in Hc.
  destruct Hv as [field Hin Hl | field v Hin Hl Hv | field xs x Hin Hl Hx Hout];
    specialize (Hc field Hin); unfold field_ok in Hc; rewrite Hl in Hc.
  - discriminate.
  - destruct v; try discriminate. by eapply Hv.
  - rewrite forallb_forall in Hc. specialize (Hc x Hx).
    destruct x as [| | | |s| |]; try discriminate.
    apply (Hout s eq_refl). by apply existsb_eqb_In.
Qed.

(** The three failure modes are all there is to a rejected object. *)
Lemma not_conforms_violates (r : list (string * json)) :
  conforms (JObj r) = false -> violates r.
Proof.
  unfold conforms. intros Hc.
  assert (Hex : exists field, In field expected_fields /\
                  field_ok (JObj r) field = false).
  { induction expected_fields as [|field rest IH]; [discriminate|].
    cbn [forallb] in Hc. destruct (field_ok (JObj r) field) eqn:Hf.
    - destruct (IH Hc) as (g & Hg & Hgf). exists g. split; [by right | done].
    - exists field. split; [by left | done]. }
  destruct Hex as (field & Hin & Hf). unfold field_ok in Hf.
  destruct (dict_lookup field r) as [v|] eqn:Hl; [|by eapply missing_field].
  destruct v as [| | | | |xs|];
    try (eapply not_a_sequence; [exact Hin | exact Hl | discriminate]).
  assert (Hx : exists x, In x xs /\ value_ok (valid_values field) x = false).
  { clear Hl. induction xs as [|x xs IH]; [discriminate|].
    cbn [forallb] in Hf. destruct (value_ok (valid_values field) x) eqn:Hv.
    - destruct (IH Hf) as (y & Hy & Hyv). exists y. split; [by right | done].
    - exists x. split; [by left | done]. }
  destruct Hx as (x & Hx & Hv).
  eapply outside_enumeration; [exact Hin | exact Hl | exact Hx |].
  intros s -> Hs. apply existsb_eqb_In in Hs. simpl in Hv. congruence.
Qed.

(** The validator accepts exactly the responses of the spec's wording. *)
Lemma validate_conforms `{!PyRuntime} (response : json) (st : state) :
  (validate_claude_response response st).1 = Ok true <->
  conforms response = true.
Proof.
  unfold validate_claude_response.
  destruct (check_fields_run response expected_fields st)
    as (res & logs & _ & -> & Hres).
  fold (conforms response) in Hres. cbn [fst].
  destruct (conforms response); [by destruct Hres as [-> _] | done].
Qed.

Section OneFile.
Context `{!PyRuntime} `{!Host}.

(** The path of [_enrich_file] on which the file is rewritten. *)
Lemma enrich_file_success (f : path) (st : state)
    (d r : list (string * json)) (prompt : string) :
  files st !! path_str f = Some (Doc (JObj d)) ->
  all_in (JObj d) expected_fields = Ok false ->
  create_claude_prompt (JObj d) = Ok prompt ->
  answer_of (claude (calls_so_far (trace st)) prompt) = Some (JObj r) ->
  conforms (JObj r) = true ->
  exists logs,
    Forall is_note logs /\
    enrich_file f st =
      (Ok true,
       with_trace
         (trace st ++ processing (name f) :: Opened (path_str f) :: Ran prompt
            :: Dumped (path_str f) (JObj (dict_update d r)) false :: logs)
         (with_files (<[path_str f := Doc (JObj (dict_update d r))]> (files st))
            st)).
Proof.
  intros Hfile Hall Hprompt Hanswer Hconf.
  apply json_load_lookup in Hfile. unfold enrich_file.
  destruct st as [folder log proc fs tr]. cbn [files trace] in *.
  run. rewrite Hfile. run. rewrite Hall. run. rewrite Hprompt. run.
  match goal with
  | |- context [call_claude_code ?p ?s] =>
      destruct (call_claude_code_run p s) as (clogs & _ & -> & Hquiet)
  end.
  cbn [trace with_trace] in *.
  assert (Hn : calls_so_far
                 ((tr ++ [Logged INFO ("Processing file: " +:+ name f)])
                  ++ [Opened (path_str f)]) = calls_so_far tr).
  { rewrite !calls_so_far_app. unfold calls_so_far. simpl. lia. }
  rewrite Hn in *. rewrite Hanswer in *. rewrite Hquiet by done. run.
  unfold validate_claude_response.
  match goal with
  | |- context [check_fields ?x ?fl ?s] =>
      destruct (check_fields_run x fl s) as (res & vlogs & _ & -> & Hres)
  end.
  fold (conforms (JObj r)) in Hres. rewrite Hconf in Hres.
  destruct Hres as [-> ->]. run.
  destruct (conforms_lookup r "target_persona" Hconf) as (tp & Htp & _);
    [simpl; tauto|].
  destruct (conforms_lookup r "startup_phase" Hconf) as (sp & Hsp & _);
    [simpl; tauto|].
  destruct (conforms_lookup r "problem_category" Hconf) as (pc & Hpc & _);
    [simpl; tauto|].
  cbn [py_update py_getitem]. run. rewrite Htp, Hsp, Hpc. run.
  eexists. split; [|rewrite <- !app_assoc; reflexivity].
  by repeat constructor.
Qed.

(** C3. When the tool is consulted for a record and its answer lacks an
    expected field, has a field that is not a list, or lists a value
    outside the field's enumeration, the call returns failure, the file
    system is as before, and no file has been written. *)
Theorem invalid_response_is_rejected (f : path) (st : state) (content : json)
    (prompt text : string) (r : list (string * json)) :
  files st !! path_str f = Some (Doc content) ->
  all_in content expected_fields = Ok false ->
  create_claude_prompt content = Ok prompt ->
  claude (calls_so_far (trace st)) prompt = Stdout text ->
  brace_span text ≫= json_loads = Some (JObj r) ->
  violates r ->
  exists st',
    enrich_file f st = (Ok false, st') /\
    files st' = files st /\
    forall p v a, In (Dumped p v a) (trace st') -> In (Dumped p v a) (trace st).
Proof.
  intros Hfile Hall Hprompt Htool Hparse Hbad.
  apply json_load_lookup in Hfile.
  apply violates_not_conforms in Hbad.
  destruct (enrich_file_run f st) as (b & fs' & rest & Heq & Hcases).
  destruct Hcases as [(-> & (logs & Hlogs & Hrest) & Hb)
                     |(-> & d' & r' & prompt' & logs & Hl' & _ & Hp' & Ha' & Hc'
                       & _)].
  - destruct b.
    { destruct (Hb eq_refl) as (content' & Hl' & Hall' & _). congruence. }
    eexists. split; [exact Heq|]. destruct st as [folder log proc fs tr].
    cbn [files trace with_trace with_files]. split; [reflexivity|].
    intros p v a [Hin|Hin]%in_app_or; [exact Hin | exfalso].
    rewrite List.Forall_forall in Hlogs.
    destruct Hin as [Hin|[Hin|Hin]]; try discriminate Hin.
    destruct Hrest as [->|[q ->]].
    + apply (Hlogs _ Hin).
    + destruct Hin as [Hin|Hin]; [discriminate Hin | apply (Hlogs _ Hin)].
  - exfalso. rewrite Hfile in Hl'. injection Hl' as ->.
    rewrite Hprompt in Hp'. injection Hp' as <-.
    rewrite Htool in Ha'. cbn [answer_of] in Ha'.
    rewrite Hparse in Ha'. injection Ha' as <-. congruence.
Qed.

(** C6 (amended). A successful enrichment removes no key of the record;
    a key that is not a key of the merged response [r] keeps its value,
    and every key of [r], one of the three target fields or not, gets the
    value [r] gives it. When the record had the three target fields
    already, nothing is merged ([r] is empty); when it lacked one, [r] is
    the object parsed from the tool's answer to the record's prompt, and
    it has passed the validator. *)
Theorem enrichment_merges_the_response (f : path) (st st' : state)
    (d : list (string * json)) :
  files st !! path_str f = Some (Doc (JObj d)) ->
  enrich_file f st = (Ok true, st') ->
  exists d' r,
    files st' !! path_str f = Some (Doc (JObj d')) /\
    (forall k, dict_has k d = true -> dict_has k d' = true) /\
    (forall k, dict_lookup k r = None -> dict_lookup k d' = dict_lookup k d) /\
    (forall k v, dict_last k r = Some v -> dict_lookup k d' = Some v) /\
    ((all_in (JObj d) expected_fields = Ok true /\ r = []) \/
     (all_in (JObj d) expected_fields = Ok false /\
      exists prompt,
        create_claude_prompt (JObj d) = Ok prompt /\
        answer_of (claude (calls_so_far (trace st)) prompt)
          = Some (JObj r) /\
        conforms (JObj r) = true)).
Proof.
  intros Hfile Hrun.
  destruct (enrich_file_run f st) as (b & fs' & rest & Heq & Hcases).
  rewrite Hrun in Heq. injection Heq as <- ->.
  destruct Hcases as [(-> & _ & Hdone)
                     |(_ & d0 & r & prompt & logs & Hl & Hall & Hp & Ha & Hc
                       & -> & _)].
  - destruct (Hdone eq_refl) as (content & Hl & Hall & _).
    apply json_load_lookup in Hl. rewrite Hfile in Hl. injection Hl as <-.
    exists d, []. destruct st as [folder log proc fs tr].
    cbn [files with_trace with_files] in *. repeat split; try done. by left.
  - apply json_load_lookup in Hl. rewrite Hfile in Hl. injection Hl as <-.
    exists (dict_update d r), r. destruct st as [folder log proc fs tr].
    cbn [files with_trace with_files] in *. repeat split.
    + apply lookup_insert_eq.
    + intros k. apply dict_has_update.
    + intros k Hk. rewrite dict_update_lookup.
      apply dict_last_None in Hk. by rewrite Hk.
    + intros k v Hk. rewrite dict_update_lookup. by rewrite Hk.
    + right. split; [done|]. by exists prompt.
Qed.

(** C9. A response that gives each of the three fields an empty list
    passes the validator, without a log record; and a record enriched with
    such a response is rewritten, with success, to hold three empty
    lists. *)
Theorem empty_lists_are_accepted (r : list (string * json)) :
  dict_lookup "target_persona" r = Some (JArr []) ->
  dict_lookup "startup_phase" r = Some (JArr []) ->
  dict_lookup "problem_category" r = Some (JArr []) ->
  (forall st, validate_claude_response (JObj r) st = (Ok true, st)) /\
  (forall f st d prompt text,
     NoDup (r.*1) ->
     files st !! path_str f = Some (Doc (JObj d)) ->
     all_in (JObj d) expected_fields = Ok false ->
     create_claude_prompt (JObj d) = Ok prompt ->
     claude (calls_so_far (trace st)) prompt = Stdout text ->
     brace_span text ≫= json_loads = Some (JObj r) ->
     exists st' d',
       enrich_file f st = (Ok true, st') /\
       files st' !! path_str f = Some (Doc (JObj d')) /\
       dict_lookup "target_persona" d' = Some (JArr []) /\
       dict_lookup "startup_phase" d' = Some (JArr []) /\
       dict_lookup "problem_category" d' = Some (JArr [])).
Proof.
  intros Htp Hsp Hpc.
  assert (Hconf : conforms (JObj r) = true).
  { unfold conforms, field_ok. simpl. by rewrite Htp, Hsp, Hpc. }
  split.
  - intros st. unfold validate_claude_response.
    destruct (check_fields_run (JObj r) expected_fields st)
      as (res & logs & _ & -> & Hres).
    fold (conforms (JObj r)) in Hres. rewrite Hconf in Hres.
    destruct Hres as [-> ->]. by rewrite with_trace_nil.
  - intros f st d prompt text Hnd Hfile Hall Hprompt Htool Hparse.
    assert (Hanswer : answer_of (claude (calls_so_far (trace st)) prompt)
                      = Some (JObj r)) by (by rewrite Htool).
    destruct (enrich_file_success f st d r prompt Hfile Hall Hprompt Hanswer Hconf)
      as (logs & _ & ->).
    eexists. exists (dict_update d r). split; [reflexivity|].
    destruct st as [folder log proc fs tr]. cbn [files with_trace with_files].
    rewrite lookup_insert_eq. rewrite !dict_update_lookup.
    rewrite !(dict_last_NoDup _ r Hnd). by rewrite Htp, Hsp, Hpc.
Qed.

End OneFile.

Lemma invalid_response_is_rejected_witness :
  exists st',
    enrich_file (H := Sample.runtime)
      (H0 := Sample.host ["a.json"] Sample.bad_answer)
      Sample.a_json Sample.one_plain_file = (Ok false, st') /\
    files st' = files Sample.one_plain_file /\
    forall p v a,
      In (Dumped p v a) (trace st') ->
      In (Dumped p v a) (trace Sample.one_plain_file).
Proof.
  refine (invalid_response_is_rejected (H := Sample.runtime)
            (H0 := Sample.host ["a.json"] Sample.bad_answer)
            Sample.a_json Sample.one_plain_file Sample.plain_record
            Sample.plain_prompt Sample.bad_answer
            [("target_persona", JArr [JStr "astronaut"])] _ _ _ _ _ _).
  - reflexivity.
  - reflexivity.
  - reflexivity.
  - reflexivity.
  - reflexivity.
  - apply (missing_field _ "startup_phase"); [simpl; tauto | reflexivity].
Defined.

(** C6 (as stated) fails: the validator checks the three fields and lets
    any further key of the response through, and the merge then overwrites
    a key of the record that is none of the three. *)
Lemma extra_key_overwrites_record :
  exists st',
    enrich_file (H := Sample.runtime)
      (H0 := Sample.host ["a.json"] Sample.wide_answer)
      Sample.a_json Sample.one_plain_file = (Ok true, st') /\
    files Sample.one_plain_file !! "in/a.json"
      = Some (Doc (JObj [("definition", JStr "original")])) /\
    exists d',
      files st' !! "in/a.json" = Some (Doc (JObj d')) /\
      dict_lookup "definition" d' = Some (JStr "changed").
Proof.
  eexists. split; [vm_compute; reflexivity|].
  split; [reflexivity|]. eexists. split; reflexivity.
Qed.

Lemma enrichment_merges_the_response_witness :
  exists d' r,
    files (enrich_file (H := Sample.runtime)
             (H0 := Sample.host ["a.json"] Sample.wide_answer)
             Sample.a_json Sample.one_plain_file).2 !! "in/a.json"
      = Some (Doc (JObj d')) /\
    (forall k, dict_has k [("definition", JStr "original")] = true ->
               dict_has k d' = true) /\
    (forall k, dict_lookup k r = None ->
               dict_lookup k d' = dict_lookup k [("definition", JStr "original")]) /\
    (forall k v, dict_last k r = Some v -> dict_lookup k d' = Some v) /\
    ((all_in Sample.plain_record expected_fields = Ok true /\ r = []) \/
     (all_in Sample.plain_record expected_fields = Ok false /\
      exists prompt,
        create_claude_prompt (H := Sample.runtime) Sample.plain_record
          = Ok prompt /\
        answer_of (H := Sample.runtime) (Stdout Sample.wide_answer)
          = Some (JObj r) /\
        conforms (JObj r) = true)).
Proof.
  refine (enrichment_merges_the_response (H := Sample.runtime)
            (H0 := Sample.host ["a.json"] Sample.wide_answer)
            Sample.a_json Sample.one_plain_file _
            [("definition", JStr "original")] _ _).
  - reflexivity.
  - vm_compute. reflexivity.
Defined.

Lemma empty_lists_are_accepted_witness :
  exists st' d',
    enrich_file (H := Sample.runtime)
      (H0 := Sample.host ["a.json"] Sample.empty_answer)
      Sample.a_json Sample.one_plain_file = (Ok true, st') /\
    files st' !! "in/a.json" = Some (Doc (JObj d')) /\
    dict_lookup "target_persona" d' = Some (JArr []) /\
    dict_lookup "startup_phase" d' = Some (JArr []) /\
    dict_lookup "problem_category" d' = Some (JArr []).
Proof.
  refine (proj2 (empty_lists_are_accepted (H := Sample.runtime)
                   (H0 := Sample.host ["a.json"] Sample.empty_answer)
                   [ ("target_persona", JArr []);
                     ("startup_phase", JArr []);
                     ("problem_category", JArr []) ] _ _ _)
            Sample.a_json Sample.one_plain_file
            [("definition", JStr "original")] Sample.plain_prompt
            Sample.empty_answer _ _ _ _ _ _); try reflexivity.
  repeat constructor; rewrite ?list_elem_of_In; simpl; intuition discriminate.
Defined.

End EnrichProps.

Module RunFacts.
Import Py Enrich EnrichSpec PyFacts SpanFacts EnrichFacts EnrichFileFacts.

(** ** Strings: reversal and suffixes *)

Lemma rev_app_sapp (s t : string) :
  String.rev_app s t = String.rev_app s "" +:+ t.
Proof.
  revert t. induction s as [|a s IH]; intros t; [reflexivity|].
  cbn [String.rev_app]. rewrite (IH (String a t)), (IH (String a "")).
  by rewrite sapp_assoc.
Qed.

Lemma rev_cons (a : ascii) (s : string) :
  String.rev (String a s) = String.rev s +:+ String a "".
Proof. unfold String.rev. cbn [String.rev_app]. apply rev_app_sapp. Qed.

Lemma rev_sapp (s t : string) :
  String.rev (s +:+ t) = String.rev t +:+ String.rev s.
Proof.
  induction s as [|a s IH].
  - change ("" +:+ t) with t. by rewrite sapp_nil_r.
  - rewrite sapp_cons, !rev_cons, IH. by rewrite sapp_assoc.
Qed.

Lemma rev_rev (s : string) : String.rev (String.rev s) = s.
Proof.
  induction s as [|a s IH]; [reflexivity|].
  rewrite rev_cons, rev_sapp, IH. reflexivity.
Qed.

Lemma prefix_sapp (p t : string) : String.prefix p (p +:+ t) = true.
Proof.
  induction p as [|a p IH]; [by destruct t|].
  rewrite sapp_cons. cbn [String.prefix].
  destruct (ascii_dec a a); [exact IH | done].
Qed.

Lemma prefix_inv (p s : string) :
  String.prefix p s = true -> exists t, s = p +:+ t.
Proof.
  revert s. induction p as [|a p IH]; intros s; [by exists s|].
  destruct s as [|b s]; [discriminate|]. cbn [String.prefix].
  destruct (ascii_dec a b) as [->|]; [|discriminate].
  intros [t ->]%IH. by exists t.
Qed.

Lemma ends_with_spec (suffix s : string) :
  ends_with suffix s = true <-> exists stem, s = stem +:+ suffix.
Proof.
  unfold ends_with. split.
  - intros [t Ht]%prefix_inv. exists (String.rev t).
    rewrite <- (rev_rev s), Ht, rev_sapp. by rewrite rev_rev.
  - intros [stem ->]. rewrite rev_sapp. apply prefix_sapp.
Qed.

Lemma json_file_name_spec (n : string) :
  json_file_name n = true <-> exists stem, n = stem +:+ ".json".
Proof.
  split.
  - induction n as [|a n IH].
    + discriminate.
    + cbn [json_file_name]. intros [He|Hn]%orb_prop.
      * apply String.eqb_eq in He. by exists "".
      * destruct (IH Hn) as [stem ->]. by exists (String a stem).
  - intros [stem ->]. induction stem as [|a stem IH].
    + reflexivity.
    + rewrite sapp_cons. cbn [json_file_name]. rewrite IH. apply orb_true_r.
Qed.

(** The pattern of the glob selects the JSON files of the spec. *)
Lemma ends_with_json (n : string) : ends_with ".json" n = json_file_name n.
Proof.
  destruct (json_file_name n) eqn:Hj.
  - by apply ends_with_spec, json_file_name_spec.
  - destruct (ends_with ".json" n) eqn:He; [|reflexivity].
    apply ends_with_spec, json_file_name_spec in He. congruence.
Qed.

Lemma glob_json_files `{!Host} (folder : string) :
  glob_json folder =
    map (Path folder) (List.filter json_file_name (listdir folder)).
Proof.
  unfold glob_json. f_equal. apply List.filter_ext. intros n.
  apply ends_with_json.
Qed.

(** ** Sets *)

Lemma is_str_same (n : string) (x : json) : py_same (JStr n) x = is_str n x.
Proof. destruct x; try reflexivity. simpl. apply String.eqb_sym. Qed.

Lemma is_str_eq (n : string) (x : json) : is_str n x = true -> x = JStr n.
Proof.
  destruct x; try discriminate. simpl. intros Hs.
  apply String.eqb_eq in Hs. by subst.
Qed.

Lemma existsb_perm {A : Type} (p : A -> bool) (l l' : list A) :
  Permutation l l' -> existsb p l = existsb p l'.
Proof.
  induction 1 as [|x l l' _ IH|x y l|l l' l'' _ IH1 _ IH2]; simpl.
  - reflexivity.
  - by rewrite IH.
  - by rewrite !orb_assoc, (orb_comm (p y)).
  - by rewrite IH1.
Qed.

Lemma set_mem_order `{!Hashing} (x : json) (l : list json) :
  set_mem x (set_order l) = set_mem x l.
Proof. apply existsb_perm, set_order_perm. Qed.

Lemma set_mem_add `{!Hashing} (n : string) (x : json) (acc : pyset) :
  set_mem (JStr n) (set_add x acc) = is_str n x || set_mem (JStr n) acc.
Proof.
  unfold set_add. destruct (set_mem x acc) eqn:Hx.
  - destruct (is_str n x) eqn:Hn; [|reflexivity].
    apply is_str_eq in Hn. subst x. by rewrite Hx.
  - rewrite set_mem_order. unfold set_mem. rewrite existsb_app. cbn [existsb].
    rewrite is_str_same, orb_false_r. apply orb_comm.
Qed.

(** Building a set from hashable values never raises, and a name is in
    the set exactly when it is among the values. *)
Lemma set_of_list_mem `{!Hashing} (xs : list json) (acc : pyset) :
  forallb hashable xs = true ->
  exists s, set_of_list xs acc = Ok s /\
    forall n, set_mem (JStr n) s = existsb (is_str n) xs || set_mem (JStr n) acc.
Proof.
  revert acc. induction xs as [|x xs IH]; intros acc Hh.
  - exists acc. by split.
  - cbn [forallb] in Hh. apply andb_prop in Hh as [Hx Hxs].
    cbn [set_of_list]. rewrite Hx.
    destruct (IH (set_add x acc) Hxs) as (s & -> & Hs).
    exists s. split; [reflexivity|]. intros n.
    rewrite Hs, set_mem_add. cbn [existsb]. by rewrite orb_assoc, (orb_comm _ (is_str n x)).
Qed.

(** With a well-formed log, the loaded set holds the listed names. *)
Lemma loaded_listed `{!Hashing} (fs : gmap string file) (log n : string) :
  log_wf fs log = true ->
  set_mem (JStr n) (loaded fs log) = listed fs log n.
Proof.
  unfold log_wf, loaded, listed.
  destruct (fs !! log) as [[|v]|]; try reflexivity.
  destruct v as [| | | | | |d]; try reflexivity.
  cbn [py_get]. destruct (dict_lookup "processed_files" d) as [v|]; [|reflexivity].
  destruct v as [| | | | |names|]; try discriminate.
  intros Hh. cbn [mbind result_bind py_set].
  destruct (set_of_list_mem names [] Hh) as (s & -> & Hs).
  rewrite Hs. simpl. apply orb_false_r.
Qed.

(** ** Traces *)

Lemma follow_mono (todo todo' : list path) (prev : option event)
    (t : list event) :
  (forall f, In f todo -> In f todo') ->
  calls_follow_open todo prev t -> calls_follow_open todo' prev t.
Proof.
  intros Hsub. revert prev. induction t as [|ev t IH]; intros prev; [done|].
  cbn [calls_follow_open]. intros [Hev Ht]. split; [|by apply IH].
  destruct ev; try done. destruct prev as [[]|]; try done.
  destruct Hev as (f & Hf & ->). eauto.
Qed.

Lemma follow_app (todo : list path) (prev : option event)
    (t1 t2 : list event) :
  calls_follow_open todo prev t1 ->
  (forall p, calls_follow_open todo p t2) ->
  calls_follow_open todo prev (t1 ++ t2).
Proof.
  intros H1 H2. revert prev H1. induction t1 as [|ev t1 IH]; intros prev.
  - intros _. apply H2.
  - cbn [calls_follow_open app]. intros [Hev Ht]. split; [done | by apply IH].
Qed.

Lemma follow_notes (todo : list path) (prev : option event)
    (logs : list event) :
  Forall is_note logs -> calls_follow_open todo prev logs.
Proof.
  intros Hlogs. revert prev.
  induction Hlogs as [|ev logs Hev _ IH]; intros prev; [done|].
  split; [by destruct ev | apply IH].
Qed.

(** A call of the tool inside a trace has the opening of a file right
    before it. *)
Lemma follow_split (todo : list path) (t pre post : list event)
    (prev : option event) (q : string) :
  calls_follow_open todo prev t ->
  t = pre ++ Ran q :: post ->
  (pre = [] /\ exists f, In f todo /\ prev = Some (Opened (path_str f))) \/
  exists pre' f, In f todo /\ pre = pre' ++ [Opened (path_str f)].
Proof.
  revert t prev. induction pre as [|ev pre IH]; intros t prev Ht ->.
  - left. split; [done|]. destruct Ht as [Hev _].
    destruct prev as [[]|]; try done. destruct Hev as (f & Hf & ->). eauto.
  - right. destruct Ht as [_ Ht].
    destruct (IH _ _ Ht eq_refl) as [(-> & f & Hf & [= ->])|(pre' & f & Hf & ->)].
    + by exists [], f.
    + by exists (ev :: pre'), f.
Qed.


Lemma run_event_mono (todo todo' : list path) (log : string) (ev : event) :
  (forall f, In f todo -> In f todo') ->
  run_event todo log ev -> run_event todo' log ev.
Proof.
  intros Hsub. destruct ev as [lvl msg|p|q|p v [] |n]; cbn [run_event]; try done.
  - intros [(f & Hf & He)|Hm]; [left; eauto | by right].
  - intros [Hp|(f & Hf & He)]; [by left | right; eauto].
  - intros (f & Hf & He). eauto.
Qed.

Lemma note_run_event (todo : list path) (log : string) (ev : event) :
  is_note ev -> run_event todo log ev.
Proof. destruct ev; try done. intros Hn. by right. Qed.

Ltac all_events :=
  repeat first
    [ assumption
    | apply List.Forall_nil
    | apply List.Forall_cons; [first [by right | done]|]
    | apply Forall_app; split ].

Ltac load_events :=
  repeat (apply List.Forall_cons; [first [by left | by right]|]);
  apply List.Forall_nil.

Section Run.
Context `{!PyRuntime} `{!Host}.

Lemma save_progress_run (st : state) :
  save_progress st =
    (Ok tt,
     let doc := progress_data (processed_files st)
                  (time_time (length (trace st))) in
     with_trace (trace st ++ [Dumped (progress_log_file st) doc true])
       (with_files (<[progress_log_file st := Doc doc]> (files st)) st)).
Proof. destruct st. reflexivity. Qed.

Lemma get_json_files_run (st : state) :
  exists notes,
    Forall is_note notes /\
    get_json_files st =
      (Ok (pending (input_folder st) (processed_files st)),
       with_trace (trace st ++ notes) st).
Proof.
  destruct st as [folder log proc fs tr]. unfold get_json_files. run.
  eexists. split; [|rewrite <- ?app_assoc; reflexivity].
  by repeat constructor.
Qed.

(** [_load_progress] on an object whose set is still empty. *)
Lemma load_progress_run (st : state) :
  processed_files st = [] ->
  exists new,
    load_progress st =
      (Ok tt,
       with_trace (trace st ++ new)
         (with_processed (loaded (files st) (progress_log_file st)) st)) /\
    Forall (fun ev => ev = Opened (progress_log_file st) \/ is_note ev) new /\
    (files st !! progress_log_file st = Some NotJson ->
     In (Logged WARNING "Failed to load progress file: ") new).
Proof.
  destruct st as [folder log proc fs tr]. cbn [processed_files]. intros ->.
  unfold load_progress, loaded. run. unfold json_load.
  destruct (fs !! log) as [[|v]|] eqn:Hlog; run; rewrite ?Hlog; run.
  - eexists. split; [rewrite <- ?app_assoc; reflexivity|]. split.
    + load_events.
    + intros _. right. by left.
  - destruct (py_get v "processed_files" (JArr [])) as [listed|e]; run.
    + destruct (py_set listed) as [s|e]; run.
      * eexists. split; [rewrite <- ?app_assoc; reflexivity|]. split.
        -- load_events.
        -- discriminate.
      * eexists. split; [rewrite <- ?app_assoc; reflexivity|]. split.
        -- load_events.
        -- discriminate.
    + eexists. split; [rewrite <- ?app_assoc; reflexivity|]. split.
      * load_events.
      * discriminate.
  - eexists. split; [reflexivity|]. split.
    + load_events.
    + discriminate.
Qed.

(** What one call of [_enrich_file] does, as far as a run is concerned. *)
Lemma enrich_file_step (f : path) (st : state) :
  exists b st' new,
    enrich_file f st = (Ok b, st') /\
    input_folder st' = input_folder st /\
    progress_log_file st' = progress_log_file st /\
    processed_files st' = processed_files st /\
    trace st' = trace st ++ new /\
    (forall log, Forall (run_event [f] log) new) /\
    (forall prev, calls_follow_open [f] prev new).
Proof.
  destruct (enrich_file_run f st) as (b & fs' & rest & Heq & Hcases).
  eexists b, _, _. split; [exact Heq|].
  destruct st as [folder log0 proc fs tr]. cbn.
  do 4 (split; [reflexivity|]).
  assert (Hf : exists g, In g [f] /\ path_str f = path_str g)
    by (exists f; split; [by left | reflexivity]).
  destruct Hcases as [(_ & (logs & Hlogs & Hrest) & _)
                     |(_ & d & r & prompt & logs & _ & _ & _ & _ & _ & _ & -> & Hlogs)].
  - assert (Hnotes : forall log, Forall (run_event [f] log) logs).
    { intros log. eapply List.Forall_impl; [|exact Hlogs]. apply note_run_event. }
    split.
    + intros log.
      apply List.Forall_cons; [left; exists f; split; [by left | reflexivity]|].
      apply List.Forall_cons; [right; exists f; split; [by left | reflexivity]|].
      destruct Hrest as [->|[q ->]]; [apply Hnotes|].
      apply List.Forall_cons; [done | apply Hnotes].
    + intros prev. split; [done|]. split; [done|].
      destruct Hrest as [->|[q ->]]; [by apply follow_notes|].
      split; [exact Hf | by apply follow_notes].
  - split.
    + intros log.
      apply List.Forall_cons; [left; exists f; split; [by left | reflexivity]|].
      apply List.Forall_cons; [right; exists f; split; [by left | reflexivity]|].
      apply List.Forall_cons; [done|].
      apply List.Forall_cons; [exists f; split; [by left | reflexivity]|].
      eapply List.Forall_impl; [|exact Hlogs]. apply note_run_event.
    + intros prev. split; [done|]. split; [done|]. split; [exact Hf|].
      split; [done | by apply follow_notes].
Qed.

(** The state in which the loop goes on after a file. *)
Lemma after_file_facts (b : bool) (total i : Z) (f : path) (st : state) :
  input_folder (after_file b total i f st) = input_folder st /\
  progress_log_file (after_file b total i f st) = progress_log_file st /\
  processed_files (after_file b total i f st) =
    (if b then set_add (JStr (name f)) (processed_files st)
     else processed_files st) /\
  files (after_file b total i f st) =
    (if b then
       <[progress_log_file st :=
           Doc (progress_data (set_add (JStr (name f)) (processed_files st))
                  (time_time (length (trace st))))]> (files st)
     else files st) /\
  trace (after_file b total i f st) =
    trace st
    ++ (if b then
          [Dumped (progress_log_file st)
             (progress_data (set_add (JStr (name f)) (processed_files st))
                (time_time (length (trace st)))) true]
        else [])
    ++ (if i <? total then
          [Logged INFO "Waiting 2 seconds before next file..."; Slept 2]
        else []).
Proof.
  unfold after_file. destruct st as [folder log proc fs tr].
  destruct b, (i <? total); cbn; rewrite ?app_nil_r, <- ?app_assoc;
    by repeat split.
Qed.

(** One turn of the loop of [enrich_all_files]. *)
Lemma enrich_each_cons (total i : Z) (f : path) (rest : list path)
    (counts : Z * Z) (st st1 : state) (b : bool) :
  enrich_file f
    (with_trace
       (trace st ++ [Logged INFO (nl +:+ "--- Processing file " +:+ int_str i
                                  +:+ "/" +:+ int_str total +:+ " ---")]) st)
    = (Ok b, st1) ->
  enrich_each total i (f :: rest) counts st =
    enrich_each total (i + 1) rest
      (if b then (counts.1 + 1, counts.2) else (counts.1, counts.2 + 1))
      (after_file b total i f st1).
Proof.
  intros Hfile. cbn [enrich_each]. run.
  destruct st as [folder log proc fs tr].
  cbn [input_folder progress_log_file processed_files files trace with_trace]
    in *.
  rewrite Hfile. destruct st1 as [folder1 log1 proc1 fs1 tr1].
  unfold after_file. destruct b; run.
  - rewrite save_progress_run. run. cbn zeta.
    destruct (i <? total); run;
      unfold with_trace, with_files, with_processed;
      cbn [input_folder progress_log_file processed_files files trace];
      rewrite <- ?app_assoc; reflexivity.
  - destruct (i <? total); run;
      unfold with_trace, with_files, with_processed;
      cbn [input_folder progress_log_file processed_files files trace];
      rewrite <- ?app_assoc; reflexivity.
Qed.

(** The loop of [enrich_all_files] never raises, and all it does concerns
    the files it was given and the progress log. *)
Lemma enrich_each_run (todo : list path) :
  forall (total i : Z) (counts : Z * Z) (st : state),
  exists counts' st' new,
    enrich_each total i todo counts st = (Ok counts', st') /\
    input_folder st' = input_folder st /\
    progress_log_file st' = progress_log_file st /\
    trace st' = trace st ++ new /\
    Forall (run_event todo (progress_log_file st)) new /\
    (forall prev, calls_follow_open todo prev new).
Proof.
  induction todo as [|f todo IH]; intros total i counts st.
  - exists counts, st, []. cbn. rewrite app_nil_r. by repeat split.
  - set (header := Logged INFO (nl +:+ "--- Processing file " +:+ int_str i
                                +:+ "/" +:+ int_str total +:+ " ---")).
    destruct (enrich_file_step f (with_trace (trace st ++ [header]) st))
      as (b & st1 & new1 & Heq & Hf1 & Hl1 & _ & Ht1 & Hev1 & Hfo1).
    rewrite (enrich_each_cons total i f todo counts st st1 b Heq).
    destruct (after_file_facts b total i f st1) as (Hf2 & Hl2 & _ & _ & Ht2).
    match goal with
    | |- context [enrich_each total (i + 1) todo ?c ?s] =>
        destruct (IH total (i + 1) c s)
          as (counts' & st' & new & -> & Hf & Hl & Ht & Hev & Hfo)
    end.
    destruct st as [folder log proc fs tr].
    cbn [input_folder progress_log_file trace with_trace] in *.
    eexists counts', st', _. split; [reflexivity|].
    rewrite Hf, Hl, Ht, Hf2, Hl2, Ht2, Hf1, Hl1, Ht1. repeat split.
    { rewrite <- !app_assoc. cbn [app]. reflexivity. }
    + specialize (Hev1 log). rewrite Hl2, Hl1 in Hev.
      assert (Hwiden : forall evs, Forall (run_event [f] log) evs ->
                         Forall (run_event (f :: todo) log) evs).
      { intros evs. apply List.Forall_impl. intros ev. apply run_event_mono.
        intros g [->|[]]. by left. }
      assert (Hlater : forall evs, Forall (run_event todo log) evs ->
                         Forall (run_event (f :: todo) log) evs).
      { intros evs. apply List.Forall_impl. intros ev. apply run_event_mono.
        intros g Hg. by right. }
      apply List.Forall_cons; [by right|].
      apply Forall_app. split; [by apply Hwiden|].
      apply Forall_app. split.
      { destruct b; [|constructor].
        apply List.Forall_cons; [|constructor].
        split; [reflexivity|]. by eexists _, _. }
      apply Forall_app. split; [|by apply Hlater].
      destruct (i <? total); [|constructor].
      apply List.Forall_cons; [by right|].
      apply List.Forall_cons; [done | constructor].
    + intros prev. split; [done|].
      apply follow_app.
      { eapply follow_mono; [|apply Hfo1]. intros g [->|[]]. by left. }
      intros p. apply follow_app; [by destruct b|].
      intros p'. apply follow_app; [by destruct (i <? total)|].
      intros p''. eapply follow_mono; [|apply Hfo]. intros g Hg. by right.
Qed.

(** A whole run: it never ends in an exception, it exits with status 0
    when the input folder exists, and all it does concerns the pending
    files and the progress log. *)
Lemma main_run (folder log : string) (fs : gmap string file) :
  exists st status,
    main folder log fs = (st, status) /\
    Forall (run_event (pending (path_norm folder)
                         (loaded fs (path_norm log))) (path_norm log))
      (trace st) /\
    calls_follow_open (pending (path_norm folder) (loaded fs (path_norm log)))
      None (trace st) /\
    (dir_exists (path_norm folder) = true -> status = 0).
Proof.
  unfold main, init, blank. run. destruct (dir_exists (path_norm folder)); run.
  2: { eexists _, _. split; [reflexivity|]. cbn [trace].
       split; [|split; [done | discriminate]].
       apply List.Forall_cons; [by right | constructor]. }
  match goal with
  | |- context [load_progress ?s] =>
      destruct (load_progress_run s eq_refl) as (new0 & -> & Hnew0 & _)
  end.
  run.
  set (todo := pending (path_norm folder) (loaded fs (path_norm log))).
  assert (Hload : Forall (run_event todo (path_norm log)) new0).
  { eapply List.Forall_impl; [|exact Hnew0]. cbn [progress_log_file].
    intros ev [->|Hn]; [by left | by apply note_run_event]. }
  assert (Hload' : forall prev, calls_follow_open todo prev new0).
  { intros prev. clear -Hnew0. revert prev.
    induction Hnew0 as [|ev new0 Hev _ IH]; intros prev; [done|].
    split; [|apply IH]. destruct Hev as [->|Hn]; [done | by destruct ev]. }
  unfold enrich_all_files. run.
  match goal with
  | |- context [get_json_files ?s] =>
      destruct (get_json_files_run s) as (notes & Hnotes & ->)
  end.
  run. fold todo.
  assert (Hfound : Forall (run_event todo (path_norm log)) notes).
  { eapply List.Forall_impl; [|exact Hnotes]. apply note_run_event. }
  assert (Hfound' : forall prev, calls_follow_open todo prev notes)
    by (intros prev; by apply follow_notes).
  destruct todo as [|f todo'] eqn:Htodo; run.
  - eexists _, _. split; [reflexivity|]. cbn [trace].
    rewrite <- ?app_assoc. cbn [app]. split; [all_events|]. split; [|done].
    apply follow_app; [apply Hload'|]. intros p.
    apply follow_app; [apply Hfound'|]. intros p'. by split.
  - match goal with
    | |- context [enrich_each ?t ?i ?l ?c ?s] =>
        destruct (enrich_each_run l t i c s)
          as (counts & st' & new & -> & Hf & Hl & Ht & Hev & Hfo)
    end.
    cbn [input_folder progress_log_file trace with_trace with_files
         with_processed] in Hf, Hl, Ht, Hev.
    run. eexists _, _. split; [reflexivity|]. cbn [trace].
    rewrite Ht, Hl. rewrite <- ?app_assoc. cbn [app].
    split; [all_events|]. split; [|done].
    apply follow_app; [apply Hload'|]. intros p.
    apply follow_app; [apply Hfound'|]. intros p'.
    split; [done|]. apply follow_app; [apply Hfo|]. intros p''.
    by repeat split.
Qed.

End Run.
End RunFacts.

Module RunProps.
Import Py Enrich EnrichSpec PyFacts SpanFacts EnrichFacts EnrichFileFacts RunFacts.

Section Run.
Context `{!PyRuntime} `{!Host}.

Lemma pending_listed (folder log : string) (fs : gmap string file) :
  log_wf fs log = true ->
  pending folder (loaded fs log) = unlisted_json_files folder fs log.
Proof.
  intros Hwf. unfold pending, unlisted_json_files.
  rewrite glob_json_files. apply List.filter_ext. intros f.
  unfold unprocessed. by rewrite loaded_listed.
Qed.

Lemma init_run (folder log : string) (fs : gmap string file) (st1 : state) :
  init (blank folder log fs) = (Ok tt, st1) ->
  input_folder st1 = path_norm folder /\
  processed_files st1 = loaded fs (path_norm log) /\
  files st1 = fs /\
  (fs !! path_norm log = Some NotJson ->
   In (Logged WARNING "Failed to load progress file: ") (trace st1)).
Proof.
  unfold init, blank. run.
  destruct (dir_exists (path_norm folder)); run; [|discriminate].
  match goal with
  | |- context [load_progress ?s] =>
      destruct (load_progress_run s eq_refl) as (new0 & -> & _ & Hwarn)
  end.
  intros [= <-]. cbn. repeat split. exact Hwarn.
Qed.

(** C5 (amended). Started with a progress log whose [processed_files],
    when present, is a list of hashable values (strings, by the format of
    the log), a run never begins to process a file whose name the log
    lists: it opens the log and the pending files only, every call of the
    tool comes right after the opening of a pending file, and only
    pending files are rewritten; and the pending files are exactly the
    JSON files of the folder, in listing order, whose names the log does
    not list. *)
Theorem listed_files_are_not_reprocessed (folder log : string)
    (fs : gmap string file) :
  log_wf fs (path_norm log) = true ->
  let todo := unlisted_json_files (path_norm folder) fs (path_norm log) in
  let run := (main folder log fs).1 in
  (forall n, listed fs (path_norm log) n = true ->
     ~ In (processing n) (trace run)) /\
  (forall p, In (Opened p) (trace run) ->
     p = path_norm log \/ exists f, In f todo /\ p = path_str f) /\
  (forall pre q post, trace run = pre ++ Ran q :: post ->
     exists pre' f, In f todo /\ pre = pre' ++ [Opened (path_str f)]) /\
  (forall p v, In (Dumped p v false) (trace run) ->
     exists f, In f todo /\ p = path_str f) /\
  (forall st1, init (blank folder log fs) = (Ok tt, st1) ->
     (get_json_files st1).1 = Ok todo).
Proof.
  intros Hwf todo run.
  destruct (main_run folder log fs) as (st & status & Hmain & Hev & Hfo & _).
  assert (Hrun : run = st) by (unfold run; by rewrite Hmain).
  rewrite Hrun. rewrite (pending_listed _ _ fs Hwf) in Hev, Hfo.
  fold todo in Hev, Hfo. rewrite List.Forall_forall in Hev.
  repeat split.
  - intros n Hn Hin. specialize (Hev _ Hin). cbn [run_event processing] in Hev.
    destruct Hev as [(f & Hf & He)|Hp]; [|discriminate Hp].
    injection He as He. apply sapp_inv_head in He. subst n.
    apply List.filter_In in Hf as [_ Hf]. by rewrite Hn in Hf.
  - intros p Hin. exact (Hev _ Hin).
  - intros pre q post Ht.
    destruct (follow_split _ _ _ _ _ _ Hfo Ht)
      as [(_ & f & _ & Hnone)|(pre' & f & Hf & ->)]; [discriminate Hnone|].
    by exists pre', f.
  - intros p v Hin. exact (Hev _ Hin).
  - intros st1 Hinit. apply init_run in Hinit as (Hf & Hp & _ & _).
    destruct (get_json_files_run st1) as (notes & _ & ->).
    cbn [fst]. rewrite Hf, Hp. by rewrite (pending_listed _ _ fs Hwf).
Qed.

(** C7. [_save_progress] writes, to the progress log, an object with the
    three keys [processed_files], [last_updated] and [total_processed]:
    the members of the processed set, the clock reading and the number of
    members; and every dump a whole run makes with [ensure_ascii] left
    on, which only [_save_progress] does, goes to the progress log and has
    this shape. *)
Theorem progress_log_shape :
  (forall st, exists st',
     save_progress st = (Ok tt, st') /\
     files st' !! progress_log_file st =
       Some (Doc (JObj
         [ ("processed_files", JArr (processed_files st));
           ("last_updated", JFloat (time_time (length (trace st))));
           ("total_processed",
            JInt (Z.of_nat (length (processed_files st)))) ]))) /\
  (forall folder log fs p v,
     In (Dumped p v true) (trace (main folder log fs).1) ->
     p = path_norm log /\
     exists names now,
       v = JObj [ ("processed_files", JArr names);
                  ("last_updated", JFloat now);
                  ("total_processed", JInt (Z.of_nat (length names))) ]).
Proof.
  split.
  - intros st. rewrite save_progress_run. eexists. split; [reflexivity|].
    destruct st. cbn. apply lookup_insert_eq.
  - intros folder log fs p v Hin.
    destruct (main_run folder log fs) as (st & status & Hmain & Hev & _).
    rewrite Hmain in Hin. rewrite List.Forall_forall in Hev.
    specialize (Hev _ Hin). destruct Hev as (-> & s & now & ->).
    split; [reflexivity|]. by exists s, now.
Qed.


End Run.

Lemma listed_files_are_not_reprocessed_witness :
  let run := (main (H := Sample.runtime) (H0 := Sample.host ["a.json"; "b.json"] "{}")
                "in" "log.json" Sample.two_files).1 in
  (forall n, listed Sample.two_files "log.json" n = true ->
             ~ In (processing n) (trace run)) /\
  (forall p, In (Opened p) (trace run) ->
     p = "log.json" \/ exists f, In f [Path "in" "b.json"] /\ p = path_str f) /\
  (forall pre q post, trace run = pre ++ Ran q :: post ->
     exists pre' f,
       In f [Path "in" "b.json"] /\ pre = pre' ++ [Opened (path_str f)]) /\
  (forall p v, In (Dumped p v false) (trace run) ->
     exists f, In f [Path "in" "b.json"] /\ p = path_str f) /\
  (forall st1,
     init (H := Sample.host ["a.json"; "b.json"] "{}")
       (blank "in" "log.json" Sample.two_files) = (Ok tt, st1) ->
     (get_json_files (H := Sample.host ["a.json"; "b.json"] "{}") st1).1
       = Ok [Path "in" "b.json"]).
Proof.
  refine (listed_files_are_not_reprocessed (H := Sample.runtime)
            (H0 := Sample.host ["a.json"; "b.json"] "{}")
            "in" "log.json" Sample.two_files _).
  reflexivity.
Defined.

(** C5 (as stated) fails for a progress log that lists a file name next
    to an entry that cannot be a member of a set: building the set raises,
    the run starts with an empty set, and the listed file is processed,
    opened and sent to the tool. *)
Lemma odd_log_reprocesses_listed_file :
  listed Sample.one_file_odd_log "log.json" "a.json" = true /\
  exists pre post,
    trace (main (H := Sample.runtime)
             (H0 := Sample.host ["a.json"] Sample.bad_answer)
             "in" "log.json" Sample.one_file_odd_log).1
    = pre ++ [ processing "a.json";
               Opened "in/a.json";
               Ran Sample.plain_prompt ] ++ post.
Proof.
  split; [reflexivity|].
  eexists [_; _; _; _; _; _], _. vm_compute. reflexivity.
Qed.


(** A run over the two complete files, one of them listed in the log. *)
Example second_run_skips_listed_file :
  List.filter (fun ev => match ev with Logged _ _ => false | _ => true end)
    (trace (main (H := Sample.runtime)
              (H0 := Sample.host ["a.json"; "b.json"] "{}")
              "in" "log.json" Sample.two_files).1)
  = [ Opened "log.json";
      Opened "in/b.json";
      Dumped "log.json"
        (JObj [ ("processed_files", JArr [JStr "a.json"; JStr "b.json"]);
                ("last_updated", JFloat (FFin false 9 0));
                ("total_processed", JInt 2) ]) true ].
Proof. vm_compute. reflexivity. Qed.

(** A run in which the tool answers with three empty lists: the record
    is rewritten with them and its name enters the progress log. *)
Example empty_answer_run :
  let run := (main (H := Sample.runtime)
                (H0 := Sample.host ["a.json"] Sample.empty_answer)
                "in" "log.json" {["in/a.json" := Doc Sample.plain_record]}).1 in
  processed_files run = [JStr "a.json"] /\
  files run !! "in/a.json" =
    Some (Doc (JObj [ ("definition", JStr "original");
                      ("target_persona", JArr []);
                      ("startup_phase", JArr []);
                      ("problem_category", JArr []) ])) /\
  files run !! "log.json" =
    Some (Doc (JObj [ ("processed_files", JArr [JStr "a.json"]);
                      ("last_updated", JFloat (FFin false 13 0));
                      ("total_processed", JInt 1) ])).
Proof. vm_compute. repeat split. Qed.

End RunProps.

